(** * Menal Kids point of sale: the cart and checkout logic of [Sell.tsx]

    A shallow embedding of the handlers of the [Sell] component
    (src/src/components/Sell.tsx) and the properties of its checkout flow.

    Numbers.  The cart, the checkout and the request it sends are modelled
    over [JS.number]: [NaN], the two infinities, or a finite value held as
    an exact rational ([Qc]), without rounding and without a sign on zero.
    What is proved there rests on the order of the operations, on signs and
    on comparisons of the amounts as given.  The tolerance of the tender,
    [payAll] and the reading of typed prices and amounts turn on rounding:
    for them the handlers are modelled again, in [Sell64], over the binary64
    numbers of [F64].  Quantities, stock levels and quantity deltas are
    counts, held as [Z] and injected where the source multiplies them with
    a price.  Strings hold the UTF-8 bytes of the text. *)

From Stdlib Require Import ZArith QArith Qcanon Lqa Lia Bool List.
From Stdlib Require Import Ascii String SpecFloat.
From stdpp Require Import base decidable option list numbers strings.

Import ListNotations.
Local Open Scope string_scope.
Local Open Scope list_scope.
Local Open Scope Z_scope.

(** ** JavaScript numbers and the built-ins the component calls *)

Module JS.

Inductive number : Type :=
  | NaN
  | Inf (negative : bool)
  | Fin (q : Qc).

#[global] Instance number_eq_dec : EqDecision number.
Proof. solve_decision. Defined.

Definition of_Z (z : Z) : number := Fin (Qc_of_Z z).

(** Finite literals are written as rationals: [lit (1 # 100)] is [0.01]. *)
Definition lit (q : Q) : number := Fin (Q2Qc q).

Definition zero : number := of_Z 0.

Definition is_finite (x : number) : bool :=
  match x with Fin _ => true | _ => false end.

(** [isNaN(x)] *)
Definition isNaN (x : number) : bool :=
  match x with NaN => true | _ => false end.

(** Boolean order on the rationals underneath. *)
Definition Qc_ltb (p q : Qc) : bool := negb (Qle_bool (this q) (this p)).
Definition Qc_leb (p q : Qc) : bool := Qle_bool (this p) (this q).

(** [x < y]: false as soon as one side is [NaN]. *)
Definition ltb (x y : number) : bool :=
  match x, y with
  | NaN, _ | _, NaN => false
  | Inf true, Inf true => false
  | Inf true, _ => true
  | _, Inf true => false
  | Inf false, _ => false
  | Fin _, Inf false => true
  | Fin p, Fin q => Qc_ltb p q
  end.

(** [x <= y] *)
Definition leb (x y : number) : bool :=
  match x, y with
  | NaN, _ | _, NaN => false
  | Inf true, _ => true
  | _, Inf true => false
  | _, Inf false => true
  | Inf false, Fin _ => false
  | Fin p, Fin q => Qc_leb p q
  end.

(** [x > y] and [x >= y] are the mirrored comparisons. *)
Definition gtb (x y : number) : bool := ltb y x.
Definition geb (x y : number) : bool := leb y x.

(** Unary minus. *)
Definition neg (x : number) : number :=
  match x with
  | NaN => NaN
  | Inf s => Inf (negb s)
  | Fin q => Fin (- q)%Qc
  end.

(** [x + y]: opposite infinities cancel to [NaN]. *)
Definition add (x y : number) : number :=
  match x, y with
  | NaN, _ | _, NaN => NaN
  | Inf s, Inf t => if Bool.eqb s t then Inf s else NaN
  | Inf s, Fin _ | Fin _, Inf s => Inf s
  | Fin p, Fin q => Fin (p + q)%Qc
  end.

(** [x - y] *)
Definition sub (x y : number) : number := add x (neg y).

(** Sign test used by the product with an infinity. *)
Definition Qc_sign (q : Qc) : comparison := (this q ?= 0)%Q.

(** [x * y]: zero times an infinity is [NaN]. *)
Definition mul (x y : number) : number :=
  match x, y with
  | NaN, _ | _, NaN => NaN
  | Inf s, Inf t => Inf (xorb s t)
  | Inf s, Fin q | Fin q, Inf s =>
      match Qc_sign q with
      | Eq => NaN
      | Gt => Inf s
      | Lt => Inf (negb s)
      end
  | Fin p, Fin q => Fin (p * q)%Qc
  end.

(** [Math.abs(x)] *)
Definition abs (x : number) : number :=
  match x with
  | NaN => NaN
  | Inf _ => Inf false
  | Fin q => if Qc_ltb q 0%Qc then Fin (- q)%Qc else Fin q
  end.

(** [Math.max(x, y)]: [NaN] if either argument is. *)
Definition max (x y : number) : number :=
  match x, y with
  | NaN, _ | _, NaN => NaN
  | _, _ => if ltb x y then y else x
  end.

(** Truthiness of a number: [NaN] and [0] are falsy. *)
Definition truthy (x : number) : bool :=
  match x with
  | NaN => false
  | Inf _ => true
  | Fin q => negb (Qeq_bool (this q) 0)
  end.

(** [x || d] on numbers. *)
Definition or_else (x d : number) : number := if truthy x then x else d.

(** *** Strings: [trim], [includes], [parseFloat] *)

(** Strings hold the UTF-8 bytes of the text.  [StrWhiteSpaceChar] is the
    white space and line terminators of the language: TAB, LF, VT, FF, CR
    and SPACE in one byte; U+00A0 in two; U+1680, U+2000 to U+200A, U+2028,
    U+2029, U+202F, U+205F, U+3000 and U+FEFF in three. *)
Definition is_space (c : ascii) : bool :=
  let n := nat_of_ascii c in
  ((9 <=? n)%nat && (n <=? 13)%nat) || (n =? 32)%nat.

Definition is_space2 (c1 c2 : ascii) : bool :=
  (nat_of_ascii c1 =? 194)%nat && (nat_of_ascii c2 =? 160)%nat.

Definition is_space3 (c1 c2 c3 : ascii) : bool :=
  let a := nat_of_ascii c1 in
  let b := nat_of_ascii c2 in
  let c := nat_of_ascii c3 in
  ((a =? 225) && (b =? 154) && (c =? 128))%nat
  || ((a =? 226) && (b =? 128)
      && (((128 <=? c) && (c <=? 138)) || (c =? 168) || (c =? 169)
          || (c =? 175)))%nat
  || ((a =? 226) && (b =? 129) && (c =? 159))%nat
  || ((a =? 227) && (b =? 128) && (c =? 128))%nat
  || ((a =? 239) && (b =? 187) && (c =? 191))%nat.

Fixpoint trimStart (s : string) : string :=
  match s with
  | String c1 rest1 =>
      if is_space c1 then trimStart rest1
      else
        match rest1 with
        | String c2 rest2 =>
            if is_space2 c1 c2 then trimStart rest2
            else
              match rest2 with
              | String c3 rest3 =>
                  if is_space3 c1 c2 c3 then trimStart rest3 else s
              | EmptyString => s
              end
        | EmptyString => s
        end
  | EmptyString => EmptyString
  end.

(** Nothing but white space. *)
Definition blank (s : string) : bool :=
  match trimStart s with EmptyString => true | _ => false end.

Fixpoint trimEnd (s : string) : string :=
  match s with
  | String c rest => if blank s then EmptyString else String c (trimEnd rest)
  | EmptyString => EmptyString
  end.

(** [s.trim()] *)
Definition trim (s : string) : string := trimEnd (trimStart s).

(** Truthiness of a string: only the empty string is falsy. *)
Definition nonempty (s : string) : bool :=
  match s with EmptyString => false | _ => true end.

(** [s.includes(t)] *)
Fixpoint includes (s t : string) : bool :=
  String.prefix t s ||
  match s with
  | EmptyString => false
  | String _ rest => includes rest t
  end.

Definition digit_of (c : ascii) : option Z :=
  let n := nat_of_ascii c in
  if ((48 <=? n)%nat && (n <=? 57)%nat)%bool then Some (Z.of_nat n - 48) else None.

(** Reads the longest run of decimal digits: the digits read (as a value
    continuing [acc]), how many there were, and the rest of the input. *)
Fixpoint read_digits (s : string) (acc : Z) (count : Z) : Z * Z * string :=
  match s with
  | String c rest =>
      match digit_of c with
      | Some d => read_digits rest (10 * acc + d) (count + 1)
      | None => (acc, count, s)
      end
  | EmptyString => (acc, count, s)
  end.

(** An optional sign: [true] for a minus. *)
Definition read_sign (s : string) : bool * string :=
  match s with
  | String "-" rest => (true, rest)
  | String "+" rest => (false, rest)
  | _ => (false, s)
  end.

(** The [ExponentPart] if one is present (an [e] or [E], an optional sign and
    at least one digit); otherwise exponent 0, nothing consumed. *)
Definition read_exponent (s : string) : Z :=
  match s with
  | String c rest =>
      if (Ascii.eqb c "e" || Ascii.eqb c "E")%bool then
        let '(sg, rest') := read_sign rest in
        let '(e, n, _) := read_digits rest' 0 0 in
        if (n =? 0)%Z then 0 else if sg then - e else e
      else 0
  | EmptyString => 0
  end.

(** [parseFloat(s)]: leading white space is skipped, then the longest prefix
    that is a [StrDecimalLiteral] is read; [NaN] when there is none. *)
Definition parseFloat (s : string) : number :=
  let '(sg, body) := read_sign (trimStart s) in
  if String.prefix "Infinity" body then Inf sg
  else
    let '(ip, ni, after_int) := read_digits body 0 0 in
    let '(m, nf, after_frac) :=
      match after_int with
      | String "." rest => read_digits rest ip 0
      | _ => (ip, 0, after_int)
      end in
    if ((ni =? 0)%Z && (nf =? 0)%Z)%bool then NaN
    else
      let e := read_exponent after_frac in
      let v := (inject_Z m * Qpower (10 # 1) (e - nf))%Q in
      Fin (Q2Qc (if sg then - v else v)).

End JS.

(** ** Data of the [Sell] component *)

(** [type PaymentMethod = 'cash' | 'bank' | 'telebirr'] *)
Inductive PaymentMethod : Type := Cash | Bank | Telebirr.

#[global] Instance PaymentMethod_eq_dec : EqDecision PaymentMethod.
Proof. solve_decision. Defined.

(** [interface Product] *)
Module Product.
Record t : Type := mk {
  id : string;
  name : string;
  category : string;
  price : JS.number;
  stock : Z
}.
End Product.

(** The [price] of a cart line is [number | string]: the string is the text
    of the price field while it is being edited. *)
Inductive Price : Type :=
  | PriceNum (n : JS.number)
  | PriceStr (s : string).

#[global] Instance Price_eq_dec : EqDecision Price.
Proof. solve_decision. Defined.

(** [interface CartItem] *)
Module CartItem.
Record t : Type := mk {
  productId : string;
  productName : string;
  quantity : Z;
  price : Price;
  originalPrice : JS.number;
  stock : Z
}.

#[global] Instance eq_dec : EqDecision t.
Proof. solve_decision. Defined.

(** [{ ...item, quantity: q }] and [{ ...item, price: p }] *)
Definition with_quantity (q : Z) (item : t) : t :=
  mk (productId item) (productName item) q (price item)
     (originalPrice item) (stock item).

Definition with_price (p : Price) (item : t) : t :=
  mk (productId item) (productName item) (quantity item) p
     (originalPrice item) (stock item).
End CartItem.

(** [interface Customer]: the fields the checkout reads. *)
Module Customer.
Record t : Type := mk {
  id : string;
  name : string;
  phone : string
}.

#[global] Instance eq_dec : EqDecision t.
Proof. solve_decision. Defined.
End Customer.

(** The [paymentSplits] object [{ cash, bank, telebirr }]. *)
Module Splits.
Record t : Type := mk {
  cash : JS.number;
  bank : JS.number;
  telebirr : JS.number
}.

#[global] Instance eq_dec : EqDecision t.
Proof. solve_decision. Defined.

(** [paymentSplits[method]] *)
Definition get (m : PaymentMethod) (s : t) : JS.number :=
  match m with
  | Cash => cash s
  | Bank => bank s
  | Telebirr => telebirr s
  end.

(** [{ ...paymentSplits, [method]: v }] *)
Definition set (m : PaymentMethod) (v : JS.number) (s : t) : t :=
  match m with
  | Cash => mk v (bank s) (telebirr s)
  | Bank => mk (cash s) v (telebirr s)
  | Telebirr => mk (cash s) (bank s) v
  end.

(** [{ cash: 0, bank: 0, telebirr: 0 }] *)
Definition zero : t := mk JS.zero JS.zero JS.zero.
End Splits.

(** The [useState] cells of the component that the cart, the tender and the
    checkout read or write.  The catalogue page, the search box and the tier
    celebration that [checkTierUpgrade] may open are left out. *)
Record State : Type := mkState {
  cart : list CartItem.t;
  processing : bool;
  paymentMethod : PaymentMethod;
  paymentSplits : Splits.t;
  showSplitPayment : bool;
  discount : string;
  showConfirmation : bool;
  selectedCustomer : option Customer.t;
  customerName : string;
  customerPhone : string
}.

#[global] Instance State_eq_dec : EqDecision State.
Proof. solve_decision. Defined.

(** The state of a freshly mounted component. *)
Definition initial : State :=
  mkState [] false Cash Splits.zero false "0" false None "" "".

(** The state setters. *)
Definition setCart (c : list CartItem.t) (st : State) : State :=
  mkState c (processing st) (paymentMethod st) (paymentSplits st)
    (showSplitPayment st) (discount st) (showConfirmation st)
    (selectedCustomer st) (customerName st) (customerPhone st).

Definition setProcessing (b : bool) (st : State) : State :=
  mkState (cart st) b (paymentMethod st) (paymentSplits st)
    (showSplitPayment st) (discount st) (showConfirmation st)
    (selectedCustomer st) (customerName st) (customerPhone st).

Definition setPaymentMethod (m : PaymentMethod) (st : State) : State :=
  mkState (cart st) (processing st) m (paymentSplits st)
    (showSplitPayment st) (discount st) (showConfirmation st)
    (selectedCustomer st) (customerName st) (customerPhone st).

Definition setPaymentSplits (s : Splits.t) (st : State) : State :=
  mkState (cart st) (processing st) (paymentMethod st) s
    (showSplitPayment st) (discount st) (showConfirmation st)
    (selectedCustomer st) (customerName st) (customerPhone st).

Definition setShowSplitPayment (b : bool) (st : State) : State :=
  mkState (cart st) (processing st) (paymentMethod st) (paymentSplits st)
    b (discount st) (showConfirmation st)
    (selectedCustomer st) (customerName st) (customerPhone st).

Definition setDiscount (d : string) (st : State) : State :=
  mkState (cart st) (processing st) (paymentMethod st) (paymentSplits st)
    (showSplitPayment st) d (showConfirmation st)
    (selectedCustomer st) (customerName st) (customerPhone st).

Definition setShowConfirmation (b : bool) (st : State) : State :=
  mkState (cart st) (processing st) (paymentMethod st) (paymentSplits st)
    (showSplitPayment st) (discount st) b
    (selectedCustomer st) (customerName st) (customerPhone st).

Definition setSelectedCustomer (c : option Customer.t) (st : State) : State :=
  mkState (cart st) (processing st) (paymentMethod st) (paymentSplits st)
    (showSplitPayment st) (discount st) (showConfirmation st)
    c (customerName st) (customerPhone st).

Definition setCustomerName (n : string) (st : State) : State :=
  mkState (cart st) (processing st) (paymentMethod st) (paymentSplits st)
    (showSplitPayment st) (discount st) (showConfirmation st)
    (selectedCustomer st) n (customerPhone st).

Definition setCustomerPhone (p : string) (st : State) : State :=
  mkState (cart st) (processing st) (paymentMethod st) (paymentSplits st)
    (showSplitPayment st) (discount st) (showConfirmation st)
    (selectedCustomer st) (customerName st) p.

(** *** What a handler does to the outside *)

(** One line of [p_items]. *)
Module RpcItem.
Record t : Type := mk {
  productId : string;
  productName : string;
  quantity : Z;
  price : JS.number;
  originalPrice : JS.number;
  total : JS.number
}.

#[global] Instance eq_dec : EqDecision t.
Proof. solve_decision. Defined.
End RpcItem.

(** [paymentDetails] *)
Module PaymentDetails.
Record t : Type := mk {
  cash : JS.number;
  bank : JS.number;
  telebirr : JS.number;
  total_paid : JS.number;
  is_split : bool
}.

#[global] Instance eq_dec : EqDecision t.
Proof. solve_decision. Defined.
End PaymentDetails.

(** The arguments of the [menal_process_sale] call. *)
Record SaleRequest : Type := mkSaleRequest {
  p_branch_id : string;
  p_customer_id : option string;
  p_total : JS.number;
  p_discount : JS.number;
  p_final_total : JS.number;
  p_payment_method : PaymentMethod;
  p_payment_details : PaymentDetails.t;
  p_items : list RpcItem.t
}.

#[global] Instance SaleRequest_eq_dec : EqDecision SaleRequest.
Proof. solve_decision. Defined.

(** Everything a handler shows or sends, in order. *)
Inductive Event : Type :=
  | Alert (msg : string)
  | ToastError (msg : string)
  | ToastSuccess (msg : string)
  | InsertCustomer (name phone : string)
  | FindCustomerByPhone (phone : string)
  | ProcessSale (req : SaleRequest)
  | CheckTierUpgrade (customerId : string)
  | SetTimeout (ms : Z)
  | FetchProducts.

#[global] Instance Event_eq_dec : EqDecision Event.
Proof. solve_decision. Defined.

(** What the insert into [menal_customers] answered: an error with its code,
    the new row's id, or neither (also when the call throws, which the
    source catches and ignores). *)
Inductive InsertResult : Type :=
  | InsertError (code : string)
  | Inserted (id : string)
  | InsertNothing.

(** The hosted backend, as far as [handleCompleteSale] talks to it.
    [process_sale] answers [None] on success and the error's message
    otherwise. *)
Record Backend : Type := mkBackend {
  insert_customer : string -> string -> InsertResult;
  find_customer_by_phone : string -> option string;
  process_sale : SaleRequest -> option string
}.

(** A handler reads the state of the render it was created in and yields the
    next state together with what it emitted. *)
Definition Handler : Type := State -> State * list Event.

(** ** The cart handlers *)

Definition is_product (productId : string) (item : CartItem.t) : bool :=
  String.eqb (CartItem.productId item) productId.

(** [addToCart]: the stock test reads [product.stock], the stock of the
    catalogue entry that was clicked. *)
Definition addToCart (product : Product.t) : Handler := fun st =>
  match List.find (is_product (Product.id product)) (cart st) with
  | Some existingItem =>
      if CartItem.quantity existingItem >=? Product.stock product then
        (st, [Alert "Not enough stock available"])
      else
        (setCart
           (map (fun item =>
                   if is_product (Product.id product) item
                   then CartItem.with_quantity (CartItem.quantity item + 1) item
                   else item)
                (cart st))
           st, [])
  | None =>
      (setCart
         (cart st ++
          [CartItem.mk (Product.id product) (Product.name product) 1
             (PriceNum (Product.price product)) (Product.price product)
             (Product.stock product)])
         st, [])
  end.

(** The callback that [updateQuantity] maps over the cart; here the stock
    test reads [item.stock], the stock stored in the line. *)
Definition updateQuantity_item (productId : string) (change : Z)
    (item : CartItem.t) : CartItem.t * list Event :=
  if is_product productId item then
    let newQuantity := CartItem.quantity item + change in
    if newQuantity <=? 0 then (item, [])
    else if newQuantity >? CartItem.stock item then
      (item, [Alert "Not enough stock available"])
    else (CartItem.with_quantity newQuantity item, [])
  else (item, []).

Definition updateQuantity (productId : string) (change : Z) : Handler :=
  fun st =>
    let r := map (updateQuantity_item productId change) (cart st) in
    (setCart (map fst r) st, concat (map snd r)).

Definition updatePrice (productId newPrice : string) : Handler := fun st =>
  if String.eqb newPrice "" then
    (setCart
       (map (fun item =>
               if is_product productId item
               then CartItem.with_price (PriceStr "") item
               else item)
            (cart st))
       st, [])
  else
    let price := JS.parseFloat newPrice in
    if JS.isNaN price || JS.ltb price JS.zero then (st, [])
    else
      (setCart
         (map (fun item =>
                 if is_product productId item
                 then CartItem.with_price (PriceNum price) item
                 else item)
              (cart st))
         st, []).

(** [item.price === ''] *)
Definition price_is_empty (p : Price) : bool :=
  match p with
  | PriceStr s => String.eqb s ""
  | PriceNum _ => false
  end.

Definition handlePriceBlur (productId : string) : Handler := fun st =>
  (setCart
     (map (fun item =>
             if is_product productId item && price_is_empty (CartItem.price item)
             then CartItem.with_price (PriceNum JS.zero) item
             else item)
          (cart st))
     st, []).

Definition removeFromCart (productId : string) : Handler := fun st =>
  (setCart (filter (fun item => negb (is_product productId item)) (cart st)) st,
   []).

(** ** Totals, recomputed on every render *)

(** [typeof item.price === 'string' ? parseFloat(item.price) || 0 : item.price] *)
Definition price_value (p : Price) : JS.number :=
  match p with
  | PriceStr s => JS.or_else (JS.parseFloat s) JS.zero
  | PriceNum n => n
  end.

(** [cart.reduce((sum, item) => sum + price * item.quantity, 0)] *)
Definition cart_subtotal (c : list CartItem.t) : JS.number :=
  fold_left
    (fun sum item =>
       JS.add sum
         (JS.mul (price_value (CartItem.price item))
                 (JS.of_Z (CartItem.quantity item))))
    c JS.zero.

Definition subtotal (st : State) : JS.number := cart_subtotal (cart st).

(** [parseFloat(discount) || 0] *)
Definition discountAmount (st : State) : JS.number :=
  JS.or_else (JS.parseFloat (discount st)) JS.zero.

(** [Math.max(0, subtotal - discountAmount)] *)
Definition total (st : State) : JS.number :=
  JS.max JS.zero (JS.sub (subtotal st) (discountAmount st)).

Definition splits_total (s : Splits.t) : JS.number :=
  JS.add (JS.add (Splits.cash s) (Splits.bank s)) (Splits.telebirr s).

Definition totalPaid (st : State) : JS.number :=
  splits_total (paymentSplits st).

Definition remaining (st : State) : JS.number :=
  JS.sub (total st) (totalPaid st).

(** The tolerance [0.01]. *)
Definition epsilon : JS.number := JS.lit (1 # 100).

Definition isSplitMode (st : State) : bool := showSplitPayment st.

Definition isPaymentComplete (st : State) : bool :=
  if isSplitMode st then JS.ltb (JS.abs (remaining st)) epsilon else true.

(** [remaining < -0.01] *)
Definition isOverpaid (st : State) : bool :=
  JS.ltb (remaining st) (JS.neg epsilon).

(** ** The payment handlers *)

Definition updatePaymentSplit (method : PaymentMethod) (value : string)
    : Handler := fun st =>
  let amount := JS.or_else (JS.parseFloat value) JS.zero in
  if JS.ltb amount JS.zero then (st, [])
  else (setPaymentSplits (Splits.set method amount (paymentSplits st)) st, []).

Definition payAll (method : PaymentMethod) : Handler := fun st =>
  let currentMethodAmount := Splits.get method (paymentSplits st) in
  let otherMethodsTotal := JS.sub (totalPaid st) currentMethodAmount in
  let amountNeeded := JS.max JS.zero (JS.sub (total st) otherMethodsTotal) in
  (setPaymentSplits (Splits.set method amountNeeded (paymentSplits st)) st, []).

Definition clearPayments : Handler := fun st =>
  (setPaymentSplits Splits.zero st, []).

(** The three single-method buttons and the Split toggle. *)
Definition selectMethod (method : PaymentMethod) : Handler := fun st =>
  (setShowSplitPayment false (setPaymentMethod method st), []).

Definition toggleSplit : Handler := fun st =>
  (setShowSplitPayment (negb (showSplitPayment st)) st, []).

(** The discount field's [onChange]. *)
Definition changeDiscount (value : string) : Handler := fun st =>
  (setDiscount value st, []).

(** ** Checkout: [handleCompleteSale] *)

(** [selectedCustomer?.id || null] *)
Definition selected_customer_id (st : State) : option string :=
  match selectedCustomer st with
  | Some c => if JS.nonempty (Customer.id c) then Some (Customer.id c) else None
  | None => None
  end.

(** The customer the sale is booked on: the selected one, or, when a name and
    a phone were typed instead, the row created for them (or the existing row
    with that phone when the insert fails as a duplicate, code 23505). *)
Definition resolve_customer (be : Backend) (st : State)
    : option string * list Event :=
  let customerId := selected_customer_id st in
  if negb (bool_decide (is_Some (selectedCustomer st)))
     && JS.nonempty (JS.trim (customerName st))
     && JS.nonempty (JS.trim (customerPhone st)) then
    let name := JS.trim (customerName st) in
    let phone := JS.trim (customerPhone st) in
    match insert_customer be name phone with
    | InsertError code =>
        if String.eqb code "23505" then
          match find_customer_by_phone be phone with
          | Some existing =>
              (Some existing, [InsertCustomer name phone; FindCustomerByPhone phone])
          | None =>
              (customerId, [InsertCustomer name phone; FindCustomerByPhone phone])
          end
        else (customerId, [InsertCustomer name phone])
    | Inserted newId => (Some newId, [InsertCustomer name phone])
    | InsertNothing => (customerId, [InsertCustomer name phone])
    end
  else (customerId, []).

(** The two calls [resolve_customer] makes. *)
Definition is_customer_event (e : Event) : bool :=
  match e with
  | InsertCustomer _ _ | FindCustomerByPhone _ => true
  | _ => false
  end.

(** The headline method of the sale.  The source's comment on the split
    branch reads: determine primary payment method (the one with highest
    amount). *)
Definition primaryMethod (st : State) : PaymentMethod :=
  if showSplitPayment st then
    let s := paymentSplits st in
    if JS.gtb (Splits.bank s) (Splits.cash s)
       && JS.gtb (Splits.bank s) (Splits.telebirr s) then Bank
    else if JS.gtb (Splits.telebirr s) (Splits.cash s)
            && JS.gtb (Splits.telebirr s) (Splits.bank s) then Telebirr
    else Cash
  else paymentMethod st.

Definition paymentDetails (st : State) (finalTotal : JS.number)
    : PaymentDetails.t :=
  if showSplitPayment st then
    let s := paymentSplits st in
    PaymentDetails.mk (Splits.cash s) (Splits.bank s) (Splits.telebirr s)
      (totalPaid st) true
  else
    PaymentDetails.mk
      (if bool_decide (paymentMethod st = Cash) then finalTotal else JS.zero)
      (if bool_decide (paymentMethod st = Bank) then finalTotal else JS.zero)
      (if bool_decide (paymentMethod st = Telebirr) then finalTotal else JS.zero)
      finalTotal false.

Definition rpcItem (item : CartItem.t) : RpcItem.t :=
  let price := price_value (CartItem.price item) in
  RpcItem.mk (CartItem.productId item) (CartItem.productName item)
    (CartItem.quantity item) price price
    (JS.mul price (JS.of_Z (CartItem.quantity item))).

(** [cart.map(item => ...)], the lines as sent. *)
Definition rpcItems (st : State) : list RpcItem.t := map rpcItem (cart st).

(** The request [handleCompleteSale] assembles once both guards are passed. *)
Definition sale_request (branch : string) (customerId : option string)
    (st : State) : SaleRequest :=
  let subtotal := cart_subtotal (cart st) in
  let finalTotal := JS.max JS.zero (JS.sub subtotal (discountAmount st)) in
  mkSaleRequest branch customerId subtotal (discountAmount st) finalTotal
    (primaryMethod st) (paymentDetails st finalTotal) (rpcItems st).

(** [error.message && error.message.includes('Insufficient stock')] *)
Definition sale_error_toast (message : string) : Event :=
  if JS.nonempty message && JS.includes message "Insufficient stock"
  then ToastError message
  else ToastError "Failed to complete sale. Please try again.".

(** [handleCompleteSale], for the branch [currentBranchId] and against the
    backend [be].  The two guards return before anything is set or sent.
    [setProcessing(true)] at the start and [setProcessing(false)] in the
    [finally] block bracket everything else. *)
Definition handleCompleteSale (currentBranchId : string) (be : Backend)
    : Handler := fun st =>
  if (length (cart st) =? 0)%nat then (st, [Alert "Cart is empty"])
  else if negb (isPaymentComplete st) then
    (st, [ToastError "Please complete payment allocation before finalizing sale"])
  else
    let st1 := setProcessing true st in
    let '(customerId, customer_events) := resolve_customer be st in
    let req := sale_request currentBranchId customerId st in
    match process_sale be req with
    | Some message =>
        (setProcessing false st1,
         customer_events ++ [ProcessSale req; sale_error_toast message])
    | None =>
        (setProcessing false (setShowConfirmation true st1),
         customer_events ++ [ProcessSale req]
         ++ match customerId with
            | Some cid => if JS.nonempty cid then [CheckTierUpgrade cid] else []
            | None => []
            end
         ++ [ToastSuccess "Sale completed successfully! 🎉"; SetTimeout 2000])
    end.

(** The callback the success branch hands to [setTimeout]. *)
Definition saleResetCallback : Handler := fun st =>
  (setCustomerPhone ""
     (setCustomerName ""
        (setSelectedCustomer None
           (setShowConfirmation false
              (setShowSplitPayment false
                 (setPaymentSplits Splits.zero
                    (setDiscount "0" (setCart [] st))))))),
   [FetchProducts]).

(** A submission, run to its end: [handleCompleteSale], and the timer's
    callback once it fires if the sale went through. *)
Definition submit (currentBranchId : string) (be : Backend) : Handler :=
  fun st =>
    let '(st', events) := handleCompleteSale currentBranchId be st in
    if bool_decide (SetTimeout 2000 ∈ events) then
      let '(st'', events') := saleResetCallback st' in
      (st'', events ++ events')
    else (st', events).

(** The requests a run handed to the persistence boundary. *)
Definition sent_requests (events : list Event) : list SaleRequest :=
  omap (fun e => match e with ProcessSale req => Some req | _ => None end)
       events.

(** The two guards at the head of [handleCompleteSale], which the checkout
    button repeats in part ([disabled = processing || !isPaymentComplete]). *)
Definition canSubmit (st : State) : bool :=
  negb (length (cart st) =? 0)%nat && isPaymentComplete st.

(** ** Sequences of operator actions *)

(** Everything the operator can do to the cart, the discount and the tender,
    and the checkout itself (against a backend that answers). *)
Inductive Action : Type :=
  | AddToCart (product : Product.t)
  | UpdateQuantity (productId : string) (change : Z)
  | UpdatePrice (productId newPrice : string)
  | HandlePriceBlur (productId : string)
  | RemoveFromCart (productId : string)
  | SelectMethod (method : PaymentMethod)
  | ToggleSplit
  | ChangeDiscount (value : string)
  | UpdatePaymentSplit (method : PaymentMethod) (value : string)
  | PayAll (method : PaymentMethod)
  | ClearPayments
  | Submit (currentBranchId : string) (be : Backend).

Definition perform (a : Action) : Handler :=
  match a with
  | AddToCart product => addToCart product
  | UpdateQuantity productId change => updateQuantity productId change
  | UpdatePrice productId newPrice => updatePrice productId newPrice
  | HandlePriceBlur productId => handlePriceBlur productId
  | RemoveFromCart productId => removeFromCart productId
  | SelectMethod method => selectMethod method
  | ToggleSplit => toggleSplit
  | ChangeDiscount value => changeDiscount value
  | UpdatePaymentSplit method value => updatePaymentSplit method value
  | PayAll method => payAll method
  | ClearPayments => clearPayments
  | Submit currentBranchId be => submit currentBranchId be
  end.

(** The state after a sequence of actions, each handler reading the state the
    previous one left. *)
Fixpoint run (actions : list Action) (st : State) : State :=
  match actions with
  | [] => st
  | a :: rest => run rest (fst (perform a st))
  end.

(** A run of [handleCompleteSale] was rejected: the state is as it was and
    nothing reached the persistence boundary. *)
Definition rejected (st : State) (r : State * list Event) : Prop :=
  fst r = st /\ sent_requests (snd r) = [].

(** ** Worked examples *)

(** Products and backends used in the worked examples. *)
Definition product_A : Product.t :=
  Product.mk "A" "Product A" "toys" (JS.of_Z 100) 5.

Definition product_B : Product.t :=
  Product.mk "B" "Product B" "toys" (JS.of_Z 50) 2.

Definition accepting_backend : Backend :=
  mkBackend (fun _ _ => InsertNothing) (fun _ => None) (fun _ => None).

(** Three of A and one of B: a subtotal of 350. *)
Definition cart_350 : State :=
  run [AddToCart product_A; AddToCart product_A; AddToCart product_A;
       AddToCart product_B] initial.

(** Split 200 cash, 150 bank, 10 telebirr against a total of 350. *)
Definition overpaid_split : State :=
  run [ToggleSplit; UpdatePaymentSplit Cash "200";
       UpdatePaymentSplit Bank "150"; UpdatePaymentSplit Telebirr "10"]
      cart_350.

(** Split of 0 cash, 50 bank and 50 telebirr. *)
Definition bank_telebirr_tie : State :=
  run [ToggleSplit; UpdatePaymentSplit Bank "50";
       UpdatePaymentSplit Telebirr "50"] initial.

(** The subtotal of 350 with a discount of 400 typed in. *)
Definition over_discounted : State :=
  run [ChangeDiscount "400"] cart_350.

(** The subtotal of 350 with a discount of 50. *)
Definition discounted_50 : State :=
  run [ChangeDiscount "50"] cart_350.

(** One of A whose price field has been emptied. *)
Definition price_cleared : State :=
  run [AddToCart product_A; UpdatePrice "A" ""] initial.

(** One of A, to be paid by bank transfer. *)
Definition paid_by_bank : State :=
  run [AddToCart product_A; SelectMethod Bank] initial.

(** ** The properties, as the specification words them *)

(** Discount at checkout: the discount sent lies between 0 and the subtotal,
    and the final total is the subtotal less that discount. *)
Definition discount_is_clamped : Prop :=
  forall (currentBranchId : string) (be : Backend) (st : State)
         (req : SaleRequest),
    req ∈ sent_requests (snd (handleCompleteSale currentBranchId be st)) ->
    JS.leb JS.zero (p_discount req) = true /\
    JS.leb (p_discount req) (p_total req) = true /\
    p_final_total req = JS.sub (p_total req) (p_discount req).

(** The price text of a line is empty or not a number. *)
Definition price_unset (p : Price) : bool :=
  match p with
  | PriceStr s => JS.isNaN (JS.parseFloat s)
  | PriceNum _ => false
  end.

Definition has_unset_price (st : State) : bool :=
  existsb (fun item => price_unset (CartItem.price item)) (cart st).

(** Unset prices block the checkout. *)
Definition unset_price_blocks_submit : Prop :=
  forall (currentBranchId : string) (be : Backend) (st : State),
    has_unset_price st = true ->
    canSubmit st = false /\
    rejected st (handleCompleteSale currentBranchId be st).

(** The sale went through: the success toast was shown. *)
Definition succeeded (events : list Event) : bool :=
  existsb (fun e => match e with ToastSuccess _ => true | _ => false end)
          events.

(** A successful submission resets everything, the single method included. *)
Definition submit_resets_to_default : Prop :=
  forall (currentBranchId : string) (be : Backend) (st : State),
    succeeded (snd (submit currentBranchId be st)) = true ->
    let st' := fst (submit currentBranchId be st) in
    cart st' = [] /\
    discountAmount st' = JS.zero /\
    showSplitPayment st' = false /\
    paymentMethod st' = Cash /\
    paymentSplits st' = Splits.zero.

(** *** Quantities *)

(** An [addToCart] or [updateQuantity] aimed at the product [productId], the
    product being in stock in the catalogue entry that is added (the
    catalogue query keeps only rows with [stock > 0]). *)
Definition targets (productId : string) (a : Action) : bool :=
  match a with
  | AddToCart product =>
      String.eqb (Product.id product) productId && (0 <? Product.stock product)
  | UpdateQuantity pid _ => String.eqb pid productId
  | _ => false
  end.

(** The same, every catalogue entry added showing the same stock. *)
Definition targets_with_stock (productId : string) (stock : Z) (a : Action)
    : bool :=
  match a with
  | AddToCart product =>
      String.eqb (Product.id product) productId && (Product.stock product =? stock)
  | UpdateQuantity pid _ => String.eqb pid productId
  | _ => false
  end.

(** The quantity ceiling: whatever is done to one product, its line stays
    between 1 and the stock recorded in the line when it was created. *)
Definition quantity_within_recorded_stock : Prop :=
  forall (productId : string) (actions : list Action),
    forallb (targets productId) actions = true ->
    forall item : CartItem.t,
      item ∈ cart (run actions initial) ->
      CartItem.productId item = productId ->
      1 <= CartItem.quantity item <= CartItem.stock item.

(** The lines of the cart for one product. *)
Definition product_lines (productId : string) (c : list CartItem.t)
    : list CartItem.t :=
  filter (fun item => is_product productId item) c.

(** At most one line for the product, and that line between 1 and [stock],
    which is also the stock it recorded. *)
Definition line_within (productId : string) (stock : Z) (c : list CartItem.t)
    : bool :=
  match product_lines productId c with
  | [] => true
  | [item] =>
      (1 <=? CartItem.quantity item)
      && (CartItem.quantity item <=? stock)
      && (CartItem.stock item =? stock)
  | _ => false
  end.

(** The catalogue entry of A with one left, and after a restock to 2. *)
Definition scarce_A : Product.t :=
  Product.mk "A" "Product A" "toys" (JS.of_Z 100) 1.

Definition restocked_A : Product.t :=
  Product.mk "A" "Product A" "toys" (JS.of_Z 100) 2.

(** Two of B, pushed against the ceiling and the floor. *)
Definition B_actions : list Action :=
  [AddToCart product_B; UpdateQuantity "B" 1; UpdateQuantity "B" 1;
   AddToCart product_B; UpdateQuantity "B" (-5)].

(** The line they leave: two of B, the stock of 2 recorded. *)
Definition B_line : CartItem.t :=
  CartItem.mk "B" "Product B" 2 (PriceNum (JS.of_Z 50)) (JS.of_Z 50) 2.

(** *** The subtotal, as the specification words it *)

(** The resolved price of a line: the number entered, and 0 while the price
    is unset. *)
Definition resolvedPrice (item : CartItem.t) : JS.number :=
  match CartItem.price item with
  | PriceNum n => n
  | PriceStr _ => JS.zero
  end.

(** The sum over all lines of quantity times resolved price, the lines
    added one after the other to a sum that starts at 0. *)
Definition sum_of_line_totals (c : list CartItem.t) : JS.number :=
  fold_left
    (fun sum item =>
       JS.add sum
         (JS.mul (JS.of_Z (CartItem.quantity item)) (resolvedPrice item)))
    c JS.zero.

(** The only text a price ever holds is the empty one. *)
Definition price_text_empty (item : CartItem.t) : Prop :=
  match CartItem.price item with
  | PriceStr s => s = ""
  | PriceNum _ => True
  end.

(** *** The tender *)

(** The sum of the split amounts of the other two methods. *)
Definition others_total (method : PaymentMethod) (s : Splits.t) : JS.number :=
  match method with
  | Cash => JS.add (Splits.bank s) (Splits.telebirr s)
  | Bank => JS.add (Splits.cash s) (Splits.telebirr s)
  | Telebirr => JS.add (Splits.cash s) (Splits.bank s)
  end.

Definition splits_finite (s : Splits.t) : bool :=
  JS.is_finite (Splits.cash s) && JS.is_finite (Splits.bank s)
  && JS.is_finite (Splits.telebirr s).


(** The method holding the largest split amount, ties going to cash, then to
    bank, then to telebirr. *)
Definition largest_amount_method (s : Splits.t) : PaymentMethod :=
  if JS.geb (Splits.cash s) (Splits.bank s)
     && JS.geb (Splits.cash s) (Splits.telebirr s) then Cash
  else if JS.geb (Splits.bank s) (Splits.telebirr s) then Bank
  else Telebirr.

(** ** Further properties of the component *)

(** *** How one action may change the cart *)

(** Every handler leaves the cart as it was, rewrites its lines in place
    (keeping each line's product and never taking a quantity below 1),
    appends a line with quantity 1 for a product that had none, filters one
    product out, or empties it. *)
Inductive cart_change (c : list CartItem.t) : list CartItem.t -> Prop :=
  | change_none : cart_change c c
  | change_lines (f : CartItem.t -> CartItem.t) :
      (forall item, CartItem.productId (f item) = CartItem.productId item) ->
      (forall item, 1 <= CartItem.quantity item ->
                    1 <= CartItem.quantity (f item)) ->
      cart_change c (map f c)
  | change_append (item : CartItem.t) :
      (forall other, other ∈ c ->
                     CartItem.productId other <> CartItem.productId item) ->
      CartItem.quantity item = 1 ->
      cart_change c (c ++ [item])
  | change_remove (productId : string) :
      cart_change c (filter (fun item => negb (is_product productId item)) c)
  | change_clear : cart_change c [].

(** The product ids of the lines, in cart order. *)
Definition cart_ids (c : list CartItem.t) : list string :=
  map CartItem.productId c.

(** *** The catalogue pages *)

Definition PRODUCTS_PER_PAGE : Z := 20.

(** The [from] and [to] that [fetchProducts] passes to [range]. *)
Definition page_range (pageNumber : Z) : Z * Z :=
  let from := pageNumber * PRODUCTS_PER_PAGE in
  let to := from + PRODUCTS_PER_PAGE - 1 in
  (from, to).

(** [handleNextPage] and [handlePrevPage]: the page they set, which is also
    the page they fetch. *)
Definition handleNextPage (page : Z) : Z :=
  let nextPage := page + 1 in nextPage.

Definition handlePrevPage (page : Z) : Z :=
  let prevPage := Z.max 0 (page - 1) in prevPage.

(** A press of one of the two paging buttons. *)
Inductive Paging : Type := NextPage | PrevPage.

Definition turn (b : Paging) (page : Z) : Z :=
  match b with
  | NextPage => handleNextPage page
  | PrevPage => handlePrevPage page
  end.

(** The page after a sequence of presses. *)
Definition page_after (presses : list Paging) (page : Z) : Z :=
  fold_left (fun p b => turn b p) presses page.

(** *** States used in the further examples *)

(** A backend whose sale procedure refuses with the given message. *)
Definition refusing_backend (message : string) : Backend :=
  mkBackend (fun _ _ => InsertNothing) (fun _ => None) (fun _ => Some message).

(** A returning customer, selected, with a name and phone also typed in. *)
Definition with_selected_customer : State :=
  setCustomerPhone "0911"
    (setCustomerName "Sara"
       (setSelectedCustomer (Some (Customer.mk "c-7" "Abebe" "0922"))
          cart_350)).

(** [paymentDetails[method]] *)
Definition details_amount (m : PaymentMethod) (d : PaymentDetails.t)
    : JS.number :=
  match m with
  | Cash => PaymentDetails.cash d
  | Bank => PaymentDetails.bank d
  | Telebirr => PaymentDetails.telebirr d
  end.

(** The message of the toast a failed sale shows. *)
Definition generic_failure : string :=
  "Failed to complete sale. Please try again.".

(** A name and a phone typed with stray blanks, no customer selected. *)
Definition typed_customer : State :=
  setCustomerPhone " 0911 " (setCustomerName "  Sara" cart_350).

(** U+00A0, the no-break space, and U+3000, the ideographic space. *)
Definition no_break_space : string :=
  String (ascii_of_nat 194) (String (ascii_of_nat 160) EmptyString).

Definition ideographic_space : string :=
  String (ascii_of_nat 227)
    (String (ascii_of_nat 128) (String (ascii_of_nat 128) EmptyString)).

(** A phone typed, and a name that is one no-break space. *)
Definition blank_name_customer : State :=
  setCustomerPhone "0911" (setCustomerName no_break_space cart_350).

(** None of the three split amounts is below zero. *)
Definition no_negative_split (s : Splits.t) : Prop :=
  forall m : PaymentMethod, JS.ltb (Splits.get m s) JS.zero = false.

(** The price of a line is a number that is at least 0. *)
Definition priced_from_zero (item : CartItem.t) : Prop :=
  JS.leb JS.zero (price_value (CartItem.price item)) = true.

(** The catalogue entry an [addToCart] carries shows a price of at least
    0. *)
Definition catalogue_priced (a : Action) : bool :=
  match a with
  | AddToCart product => JS.leb JS.zero (Product.price product)
  | _ => true
  end.

(** * The amounts at binary64 *)

(** The component's amounts are binary64 numbers.  Where a property turns on
    rounding (the [0.01] tolerance of the tender, [payAll], the reading of
    typed amounts), the handlers are modelled again below over the binary64
    numbers of the Standard Library's [SpecFloat], with their signed zeros,
    infinities and round-to-nearest-even arithmetic. *)

Module F64.

Definition prec : Z := 53.
Definition emax : Z := 1024.

Definition number : Type := spec_float.

#[global] Instance number_eq_dec : EqDecision spec_float.
Proof. solve_decision. Defined.

Definition NaN : number := S754_nan.

(** The literal [0]. *)
Definition zero : number := S754_zero false.

(** A count, as a number. *)
Definition of_Z (z : Z) : number := binary_normalize prec emax z 0 false.

Definition isNaN (x : number) : bool :=
  match x with S754_nan => true | _ => false end.

Definition is_finite (x : number) : bool :=
  match x with
  | S754_zero _ | S754_finite _ _ _ => true
  | _ => false
  end.


(** [x < y], [x <= y], [x > y], [x >= y]: false as soon as one side is
    [NaN]; the two zeros compare equal. *)
Definition ltb (x y : number) : bool := SFltb x y.
Definition leb (x y : number) : bool := SFleb x y.
Definition gtb (x y : number) : bool := SFltb y x.
Definition geb (x y : number) : bool := SFleb y x.

Definition neg (x : number) : number := SFopp x.
Definition abs (x : number) : number := SFabs x.
Definition add (x y : number) : number := SFadd prec emax x y.
Definition sub (x y : number) : number := SFsub prec emax x y.
Definition mul (x y : number) : number := SFmul prec emax x y.

(** [Math.max(x, y)]: [NaN] if either argument is, and [+0] above [-0]. *)
Definition max (x y : number) : number :=
  match x, y with
  | S754_nan, _ | _, S754_nan => S754_nan
  | S754_zero sx, S754_zero sy => S754_zero (sx && sy)
  | _, _ => if ltb x y then y else x
  end.

(** Truthiness: [NaN], [+0] and [-0] are falsy. *)
Definition truthy (x : number) : bool :=
  match x with
  | S754_nan | S754_zero _ => false
  | _ => true
  end.

(** [x || d] on numbers. *)
Definition or_else (x d : number) : number := if truthy x then x else d.

(** *** Reading a number from a text *)

(** What [parseFloat] finds at the head of a text, white space skipped: no
    number, an [Infinity], or a decimal literal, its digits read as one
    whole number with the decimal exponent that goes with them. *)
Inductive Literal : Type :=
  | NotANumber
  | Infinite (negative : bool)
  | Decimal (negative : bool) (digits exponent : Z).

Fixpoint skip (n : nat) (s : string) : string :=
  match n, s with
  | S n', String _ rest => skip n' rest
  | _, _ => s
  end.

(** The [ExponentPart] if one is present, and the text after it. *)
Definition read_exponent_part (s : string) : Z * string :=
  match s with
  | String c rest =>
      if (Ascii.eqb c "e" || Ascii.eqb c "E")%bool then
        let '(sg, rest') := JS.read_sign rest in
        let '(e, n, after) := JS.read_digits rest' 0 0 in
        if (n =? 0)%Z then (0, s) else (if sg then - e else e, after)
      else (0, s)
  | EmptyString => (0, s)
  end.

(** The longest prefix that is a [StrDecimalLiteral], and the text left
    over. *)
Definition read_literal (s : string) : Literal * string :=
  let '(sg, body) := JS.read_sign (JS.trimStart s) in
  if String.prefix "Infinity" body then (Infinite sg, skip 8 body)
  else
    let '(ip, ni, after_int) := JS.read_digits body 0 0 in
    let '(m, nf, after_frac) :=
      match after_int with
      | String "." rest => JS.read_digits rest ip 0
      | _ => (ip, 0, after_int)
      end in
    if ((ni =? 0)%Z && (nf =? 0)%Z)%bool then (NotANumber, s)
    else
      let '(e, rest) := read_exponent_part after_frac in
      (Decimal sg m (e - nf), rest).

(** The binary64 number nearest to [num / den], ties to even, with the sign
    given: the quotient with its remainder's position, then rounded. *)
Definition round_ratio (sg : bool) (num den : Z) : number :=
  let '(q, e, l) := SFdiv_core_binary prec emax num 0 den 0 in
  binary_round_aux prec emax sg q e l.

(** The number nearest to [digits * 10 ^ exponent]. *)
Definition of_decimal (sg : bool) (digits exponent : Z) : number :=
  if 0 <=? exponent then round_ratio sg (digits * 10 ^ exponent) 1
  else round_ratio sg digits (10 ^ (- exponent)).

Definition of_literal (l : Literal) : number :=
  match l with
  | NotANumber => S754_nan
  | Infinite sg => S754_infinity sg
  | Decimal sg m k => of_decimal sg m k
  end.

(** [parseFloat(s)] *)
Definition parseFloat (s : string) : number := of_literal (fst (read_literal s)).

End F64.

(** ** The tender and the typed amounts of [Sell], at binary64 *)

Module Sell64.

Inductive Price : Type :=
  | PriceNum (n : F64.number)
  | PriceStr (s : string).

#[global] Instance Price_eq_dec : EqDecision Price.
Proof. solve_decision. Defined.

(** [interface CartItem] *)
Module CartItem.
Record t : Type := mk {
  productId : string;
  productName : string;
  quantity : Z;
  price : Price;
  originalPrice : F64.number;
  stock : Z
}.

#[global] Instance eq_dec : EqDecision t.
Proof. solve_decision. Defined.

(** [{ ...item, price: p }] *)
Definition with_price (p : Price) (item : t) : t :=
  mk (productId item) (productName item) (quantity item) p
     (originalPrice item) (stock item).
End CartItem.

(** The [paymentSplits] object. *)
Module Splits.
Record t : Type := mk {
  cash : F64.number;
  bank : F64.number;
  telebirr : F64.number
}.

#[global] Instance eq_dec : EqDecision t.
Proof. solve_decision. Defined.

Definition get (m : PaymentMethod) (s : t) : F64.number :=
  match m with
  | Cash => cash s
  | Bank => bank s
  | Telebirr => telebirr s
  end.

Definition set (m : PaymentMethod) (v : F64.number) (s : t) : t :=
  match m with
  | Cash => mk v (bank s) (telebirr s)
  | Bank => mk (cash s) v (telebirr s)
  | Telebirr => mk (cash s) (bank s) v
  end.

Definition zero : t := mk F64.zero F64.zero F64.zero.
End Splits.

(** The [useState] cells that the totals and the tender read or write. *)
Record State : Type := mkState {
  cart : list CartItem.t;
  paymentSplits : Splits.t;
  showSplitPayment : bool;
  discount : string
}.

#[global] Instance State_eq_dec : EqDecision State.
Proof. solve_decision. Defined.

Definition setCart (c : list CartItem.t) (st : State) : State :=
  mkState c (paymentSplits st) (showSplitPayment st) (discount st).

Definition setPaymentSplits (s : Splits.t) (st : State) : State :=
  mkState (cart st) s (showSplitPayment st) (discount st).

Definition is_product (productId : string) (item : CartItem.t) : bool :=
  String.eqb (CartItem.productId item) productId.

(** [updatePrice] *)
Definition updatePrice (productId newPrice : string) (st : State) : State :=
  if String.eqb newPrice "" then
    setCart
      (map (fun item =>
              if is_product productId item
              then CartItem.with_price (PriceStr "") item
              else item)
           (cart st))
      st
  else
    let price := F64.parseFloat newPrice in
    if F64.isNaN price || F64.ltb price F64.zero then st
    else
      setCart
        (map (fun item =>
                if is_product productId item
                then CartItem.with_price (PriceNum price) item
                else item)
             (cart st))
        st.

(** [typeof item.price === 'string' ? parseFloat(item.price) || 0 : item.price] *)
Definition price_value (p : Price) : F64.number :=
  match p with
  | PriceStr s => F64.or_else (F64.parseFloat s) F64.zero
  | PriceNum n => n
  end.

(** [cart.reduce((sum, item) => sum + price * item.quantity, 0)] *)
Definition subtotal (st : State) : F64.number :=
  fold_left
    (fun sum item =>
       F64.add sum
         (F64.mul (price_value (CartItem.price item))
                  (F64.of_Z (CartItem.quantity item))))
    (cart st) F64.zero.

(** [parseFloat(discount) || 0] *)
Definition discountAmount (st : State) : F64.number :=
  F64.or_else (F64.parseFloat (discount st)) F64.zero.

(** [Math.max(0, subtotal - discountAmount)] *)
Definition total (st : State) : F64.number :=
  F64.max F64.zero (F64.sub (subtotal st) (discountAmount st)).

(** [paymentSplits.cash + paymentSplits.bank + paymentSplits.telebirr] *)
Definition totalPaid (st : State) : F64.number :=
  let s := paymentSplits st in
  F64.add (F64.add (Splits.cash s) (Splits.bank s)) (Splits.telebirr s).

Definition remaining (st : State) : F64.number :=
  F64.sub (total st) (totalPaid st).

(** The literal [0.01]: the binary64 number nearest to it. *)
Definition epsilon : F64.number := F64.of_decimal false 1 (-2).

Definition isPaymentComplete (st : State) : bool :=
  if showSplitPayment st then F64.ltb (F64.abs (remaining st)) epsilon
  else true.

Definition isOverpaid (st : State) : bool :=
  F64.ltb (remaining st) (F64.neg epsilon).

Definition updatePaymentSplit (method : PaymentMethod) (value : string)
    (st : State) : State :=
  let amount := F64.or_else (F64.parseFloat value) F64.zero in
  if F64.ltb amount F64.zero then st
  else setPaymentSplits (Splits.set method amount (paymentSplits st)) st.

Definition payAll (method : PaymentMethod) (st : State) : State :=
  let currentMethodAmount := Splits.get method (paymentSplits st) in
  let otherMethodsTotal := F64.sub (totalPaid st) currentMethodAmount in
  let amountNeeded := F64.max F64.zero (F64.sub (total st) otherMethodsTotal) in
  setPaymentSplits (Splits.set method amountNeeded (paymentSplits st)) st.

Definition clearPayments (st : State) : State :=
  setPaymentSplits Splits.zero st.

(** [handleCompleteSale]: the two guards return before anything is set or
    sent; [proceed] stands for all that follows them. *)
Definition handleCompleteSale {R : Type} (proceed : State -> R) (st : State)
    : Event + R :=
  if (length (cart st) =? 0)%nat then inl (Alert "Cart is empty")
  else if negb (isPaymentComplete st) then
    inl (ToastError
           "Please complete payment allocation before finalizing sale")
  else inr (proceed st).

Definition canSubmit (st : State) : bool :=
  negb (length (cart st) =? 0)%nat && isPaymentComplete st.

(** *** Worked examples *)

(** Three of A at 100 and one of B at 50: a subtotal of 350. *)
Definition cart_350 : list CartItem.t :=
  [CartItem.mk "A" "Product A" 3 (PriceNum (F64.of_Z 100)) (F64.of_Z 100) 5;
   CartItem.mk "B" "Product B" 1 (PriceNum (F64.of_Z 50)) (F64.of_Z 50) 2].

(** Split mode against that cart, the three amounts as typed. *)
Definition split_of (cash bank telebirr : string) : State :=
  updatePaymentSplit Telebirr telebirr
    (updatePaymentSplit Bank bank
       (updatePaymentSplit Cash cash
          (mkState cart_350 Splits.zero true "0"))).


(** *** The tender and the typed amounts, as the specification words them *)


(** A text that is a number from its first character to its last, white
    space at either end apart. *)
Definition numeric (s : string) : bool :=
  match F64.read_literal s with
  | (F64.NotANumber, _) => false
  | (_, rest) => JS.blank rest
  end.

(** A numeric text for a number below zero: a minus sign before [Infinity]
    or before digits that are not all 0. *)
Definition negative (s : string) : bool :=
  numeric s &&
  match fst (F64.read_literal s) with
  | F64.Infinite sg => sg
  | F64.Decimal sg m _ => sg && (0 <? m)
  | F64.NotANumber => false
  end.



(** *** What the handlers make of a text *)




End Sell64.
(** * Properties *)

(** Closed goals over decidable data are settled by evaluation. *)
Ltac by_compute :=
  match goal with
  | |- ?P => apply (bool_decide_unpack P); vm_compute; exact I
  end.

Example parseFloat_examples :
  JS.parseFloat "12.50" = JS.lit (25 # 2) /\
  JS.parseFloat "  -3e2x" = JS.of_Z (-300) /\
  JS.parseFloat ".5" = JS.lit (1 # 2) /\
  JS.parseFloat "5." = JS.of_Z 5 /\
  JS.parseFloat "1e" = JS.of_Z 1 /\
  JS.parseFloat "" = JS.NaN /\
  JS.parseFloat "abc" = JS.NaN /\
  JS.parseFloat "." = JS.NaN /\
  JS.parseFloat "-Infinity" = JS.Inf true.
Proof. repeat split; by_compute. Qed.

(** [trim] and [parseFloat] strip white space beyond ASCII; a name that is
    one no-break space is blank, and no customer row is made for it. *)
Example trim_examples :
  JS.trim ("  Sara" ++ no_break_space) = "Sara" /\
  JS.trim no_break_space = "" /\
  JS.trim (ideographic_space ++ "a b" ++ String (ascii_of_nat 9) "") = "a b" /\
  JS.parseFloat (no_break_space ++ "12.5") = JS.lit (25 # 2) /\
  existsb is_customer_event
    (snd (handleCompleteSale "branch-1" accepting_backend
            blank_name_customer)) = false.
Proof. repeat split; by_compute. Qed.

(** The worked scenarios of the specification: three of A at 100 and one of
    B at 50 come to 350; a discount of 400 brings the amount due to 0; a
    split of 200 and 150 completes the payment, and 10 more overpays it. *)
Example scenario_subtotal : subtotal cart_350 = JS.of_Z 350.
Proof. by_compute. Qed.

Example scenario_over_discount :
  total over_discounted = JS.zero /\
  discountAmount over_discounted = JS.of_Z 400.
Proof. split; by_compute. Qed.

Example scenario_overpaid :
  totalPaid overpaid_split = JS.of_Z 360 /\
  remaining overpaid_split = JS.of_Z (-10) /\
  isOverpaid overpaid_split = true /\
  canSubmit overpaid_split = false.
Proof. repeat split; by_compute. Qed.

(** ** Arithmetic of [JS.number] *)

Section Numbers.

Import JS.

Lemma Qc_ltb_lt (p q : Qc) : Qc_ltb p q = true <-> (p < q)%Qc.
Proof.
  unfold Qc_ltb, Qclt. rewrite negb_true_iff. split.
  - intros H. apply Qnot_le_lt. intros Hle.
    apply Qle_bool_iff in Hle. congruence.
  - intros H. destruct (Qle_bool q p) eqn:E; [|reflexivity].
    apply Qle_bool_iff in E. apply Qle_not_lt in E. contradiction.
Qed.

Lemma Qc_ltb_ge (p q : Qc) : Qc_ltb p q = false <-> (q <= p)%Qc.
Proof.
  unfold Qc_ltb, Qcle. rewrite negb_false_iff. apply Qle_bool_iff.
Qed.

Lemma Qc_leb_le (p q : Qc) : Qc_leb p q = true <-> (p <= q)%Qc.
Proof. unfold Qc_leb, Qcle. apply Qle_bool_iff. Qed.

Lemma Qc_leb_gt (p q : Qc) : Qc_leb p q = false <-> (q < p)%Qc.
Proof.
  rewrite <- Qc_ltb_lt. unfold Qc_leb, Qc_ltb.
  destruct (Qle_bool p q); simpl; split; congruence.
Qed.

End Numbers.

(** Turns boolean comparisons of rationals into propositions, in the goal and
    in the hypotheses. *)
Ltac qc_prop :=
  repeat match goal with
  | H : JS.Qc_ltb _ _ = true |- _ => apply Qc_ltb_lt in H
  | H : JS.Qc_ltb _ _ = false |- _ => apply Qc_ltb_ge in H
  | H : JS.Qc_leb _ _ = true |- _ => apply Qc_leb_le in H
  | H : JS.Qc_leb _ _ = false |- _ => apply Qc_leb_gt in H
  | |- JS.Qc_ltb _ _ = true => apply Qc_ltb_lt
  | |- JS.Qc_ltb _ _ = false => apply Qc_ltb_ge
  | |- JS.Qc_leb _ _ = true => apply Qc_leb_le
  | |- JS.Qc_leb _ _ = false => apply Qc_leb_gt
  end.

(** Linear arithmetic over [Qc], by way of [Q]. *)
Ltac qc_lra :=
  qc_prop;
  try apply Qc_is_canon;
  unfold Qclt, Qcle, Qcplus, Qcminus, Qcopp, Qcmult, JS.lit, Qc_of_Z, Q2Qc in *;
  simpl this in *;
  rewrite ?Qred_correct in *;
  unfold inject_Z in *;
  lra.

Section NumberLaws.

Import JS.

Lemma add_comm (x y : number) : add x y = add y x.
Proof.
  destruct x as [|[]|p], y as [|[]|q]; simpl; try reflexivity.
  f_equal. ring.
Qed.

Lemma add_zero_l (x : number) : add zero x = x.
Proof.
  destruct x as [|[]|p]; simpl; try reflexivity.
  f_equal. qc_lra.
Qed.

Lemma mul_comm (x y : number) : mul x y = mul y x.
Proof.
  destruct x as [|[]|p], y as [|[]|q]; simpl; try reflexivity.
  f_equal. ring.
Qed.

(** [Math.max(0, x)] is never below zero. *)
Lemma max_zero_not_negative (x : number) : ltb (max zero x) zero = false.
Proof.
  destruct x as [|[]|p]; simpl; try reflexivity.
  destruct (Qc_ltb _ p) eqn:E; simpl; [qc_lra | reflexivity].
Qed.

End NumberLaws.

(** ** The guards of the checkout *)

Lemma sent_requests_app (l1 l2 : list Event) :
  sent_requests (l1 ++ l2) = sent_requests l1 ++ sent_requests l2.
Proof. unfold sent_requests. apply omap_app. Qed.

(** [handleCompleteSale] rejects exactly when [canSubmit] is false; otherwise
    it sends one request, the one [sale_request] assembles. *)
Lemma handleCompleteSale_rejects (currentBranchId : string) (be : Backend)
    (st : State) :
  canSubmit st = false ->
  rejected st (handleCompleteSale currentBranchId be st).
Proof.
  unfold canSubmit, handleCompleteSale, rejected. intros H.
  destruct (length (cart st) =? 0)%nat; simpl in *; [split; reflexivity|].
  rewrite H. simpl. split; reflexivity.
Qed.

Lemma resolve_customer_sends_nothing (be : Backend) (st : State) :
  sent_requests (snd (resolve_customer be st)) = [].
Proof.
  unfold resolve_customer.
  repeat match goal with
  | |- context [if ?b then _ else _] => destruct b
  | |- context [match ?x with _ => _ end] => destruct x
  end; reflexivity.
Qed.

Lemma handleCompleteSale_sends (currentBranchId : string) (be : Backend)
    (st : State) :
  canSubmit st = true ->
  sent_requests (snd (handleCompleteSale currentBranchId be st)) =
  [sale_request currentBranchId (fst (resolve_customer be st)) st].
Proof.
  unfold canSubmit, handleCompleteSale. intros H.
  apply andb_true_iff in H as [Hcart Hpay].
  destruct (length (cart st) =? 0)%nat; [discriminate|].
  rewrite Hpay. simpl.
  pose proof (resolve_customer_sends_nothing be st) as Hnone.
  destruct (resolve_customer be st) as [customerId customer_events].
  simpl in *.
  destruct (process_sale be _) as [message|]; simpl;
    rewrite sent_requests_app, Hnone; simpl.
  { unfold sale_error_toast. destruct (_ && _); reflexivity. }
  rewrite sent_requests_app. simpl.
  destruct customerId as [cid|]; [destruct (JS.nonempty cid)|]; reflexivity.
Qed.

(** ** The headline payment method *)

(** Away from a tie between bank and telebirr above cash, the method the
    source records is the one with the largest amount, ties going to cash,
    then bank, then telebirr. *)
Lemma primaryMethod_off_tie (st : State) :
  showSplitPayment st = true ->
  splits_finite (paymentSplits st) = true ->
  ~ (Splits.bank (paymentSplits st) = Splits.telebirr (paymentSplits st) /\
     JS.ltb (Splits.cash (paymentSplits st)) (Splits.bank (paymentSplits st))
     = true) ->
  primaryMethod st = largest_amount_method (paymentSplits st).
Proof.
  intros Hsplit Hs Htie. unfold primaryMethod, largest_amount_method.
  rewrite Hsplit.
  destruct (paymentSplits st) as [[| |c] [| |b] [| |t]]; try discriminate.
  unfold JS.gtb, JS.geb. simpl in *.
  destruct (JS.Qc_ltb c b) eqn:E1, (JS.Qc_ltb t b) eqn:E2,
           (JS.Qc_ltb c t) eqn:E3, (JS.Qc_ltb b t) eqn:E4,
           (JS.Qc_leb b c) eqn:E5, (JS.Qc_leb t c) eqn:E6,
           (JS.Qc_leb t b) eqn:E7;
    simpl; try reflexivity; exfalso;
    first [ apply Htie; split; [f_equal|]; qc_lra | qc_lra ].
Qed.

(** C5: with bank and telebirr tied at 50 above a cash amount of 0, the
    method recorded in the request is cash, which holds the smallest amount,
    while the method with the largest amount, ties going to cash, then bank,
    then telebirr, is bank. *)
Theorem primaryMethod_bank_telebirr_tie :
  paymentSplits bank_telebirr_tie
    = Splits.mk JS.zero (JS.of_Z 50) (JS.of_Z 50) /\
  showSplitPayment bank_telebirr_tie = true /\
  primaryMethod bank_telebirr_tie = Cash /\
  p_payment_method (sale_request "branch-1" None bank_telebirr_tie) = Cash /\
  largest_amount_method (paymentSplits bank_telebirr_tie) = Bank.
Proof. repeat split; by_compute. Qed.

(** ** Discount at checkout *)

Lemma sale_request_totals (currentBranchId : string)
    (customerId : option string) (st : State) :
  let req := sale_request currentBranchId customerId st in
  p_total req = subtotal st /\
  p_discount req = discountAmount st /\
  p_final_total req = total st.
Proof. repeat split. Qed.

Lemma sent_request_inv (currentBranchId : string) (be : Backend) (st : State)
    (req : SaleRequest) :
  req ∈ sent_requests (snd (handleCompleteSale currentBranchId be st)) ->
  canSubmit st = true /\
  req = sale_request currentBranchId (fst (resolve_customer be st)) st.
Proof.
  intros Hin. destruct (canSubmit st) eqn:Hcan.
  - rewrite handleCompleteSale_sends in Hin by exact Hcan.
    apply list_elem_of_singleton in Hin. auto.
  - destruct (handleCompleteSale_rejects currentBranchId be st Hcan) as [_ Hnone].
    rewrite Hnone in Hin. inversion Hin.
Qed.

(** Subtracting a discount between zero and a finite subtotal. *)
Lemma sub_within (s d : JS.number) :
  JS.is_finite s = true ->
  JS.leb JS.zero d = true ->
  JS.leb d s = true ->
  JS.max JS.zero (JS.sub s d) = JS.sub s d /\
  JS.leb JS.zero (JS.sub s d) = true /\
  JS.leb (JS.sub s d) s = true.
Proof.
  destruct s as [|[]|p], d as [|[]|q]; simpl; try discriminate.
  intros _ H0 Hd.
  assert (Hpos : JS.Qc_ltb (Qc_of_Z 0) (p + - q)%Qc = true \/ (p + - q)%Qc = Qc_of_Z 0).
  { destruct (JS.Qc_ltb (Qc_of_Z 0) (p + - q)%Qc) eqn:E; [left; reflexivity|].
    right. qc_lra. }
  repeat split.
  - destruct Hpos as [-> | Heq]; [reflexivity|].
    destruct (JS.Qc_ltb _ _); [reflexivity|]. unfold JS.zero, JS.of_Z.
    congruence.
  - qc_lra.
  - qc_lra.
Qed.

(** C1 (as amended): the request sent at checkout carries the discount as it
    was entered, [parseFloat(discount) || 0], not clamped to the subtotal,
    and the final total [Math.max(0, subtotal - discount)], which is never
    negative; when the discount lies between 0 and a finite subtotal, the
    final total is the subtotal less the discount and lies between 0 and the
    subtotal. *)
Theorem checkout_discount_floor (currentBranchId : string) (be : Backend)
    (st : State) (req : SaleRequest) :
  req ∈ sent_requests (snd (handleCompleteSale currentBranchId be st)) ->
  p_total req = subtotal st /\
  p_discount req = JS.or_else (JS.parseFloat (discount st)) JS.zero /\
  p_final_total req = JS.max JS.zero (JS.sub (p_total req) (p_discount req)) /\
  JS.ltb (p_final_total req) JS.zero = false /\
  (JS.is_finite (p_total req) = true /\
   JS.leb JS.zero (p_discount req) = true /\
   JS.leb (p_discount req) (p_total req) = true ->
   p_final_total req = JS.sub (p_total req) (p_discount req) /\
   JS.leb JS.zero (p_final_total req) = true /\
   JS.leb (p_final_total req) (p_total req) = true).
Proof.
  intros Hin. apply sent_request_inv in Hin as [_ ->].
  destruct (sale_request_totals currentBranchId
              (fst (resolve_customer be st)) st) as (Ht & Hd & Hf).
  cbv zeta in Ht, Hd, Hf. rewrite Ht, Hd, Hf.
  unfold total, discountAmount.
  split; [reflexivity|]. split; [reflexivity|]. split; [reflexivity|].
  split; [apply max_zero_not_negative|].
  intros (Hfin & H0 & Hle).
  destruct (sub_within _ _ Hfin H0 Hle) as (-> & Hpos & Hbelow). auto.
Qed.

Lemma checkout_discount_floor_witness :
  let req := sale_request "branch-1" None discounted_50 in
  p_final_total req = JS.sub (p_total req) (p_discount req) /\
  JS.leb JS.zero (p_final_total req) = true /\
  JS.leb (p_final_total req) (p_total req) = true.
Proof.
  intros req.
  destruct (checkout_discount_floor "branch-1" accepting_backend
              discounted_50 req) as (_ & _ & _ & _ & Hwithin).
  { by_compute. }
  apply Hwithin. repeat split; vm_compute; reflexivity.
Defined.

(** C1, as stated, fails: with a subtotal of 350 and a discount of 400 typed
    in, the request carries a discount of 400, above the subtotal, and a
    final total of 0, which is not 350 - 400. *)
Lemma discount_is_clamped_counterexample :
  sent_requests
    (snd (handleCompleteSale "branch-1" accepting_backend over_discounted))
  = [sale_request "branch-1" None over_discounted] /\
  p_total (sale_request "branch-1" None over_discounted) = JS.of_Z 350 /\
  p_discount (sale_request "branch-1" None over_discounted) = JS.of_Z 400 /\
  p_final_total (sale_request "branch-1" None over_discounted) = JS.zero /\
  ~ discount_is_clamped.
Proof.
  repeat (split; [by_compute|]).
  intros claim.
  destruct (claim "branch-1" accepting_backend over_discounted
              (sale_request "branch-1" None over_discounted))
    as (_ & Hle & _).
  { by_compute. }
  vm_compute in Hle. discriminate Hle.
Qed.

(** ** Prices at checkout *)

Lemma price_value_unset (p : Price) :
  price_unset p = true -> price_value p = JS.zero.
Proof.
  destruct p as [n|s]; simpl; [discriminate|].
  destruct (JS.parseFloat s); simpl; try discriminate. reflexivity.
Qed.

Lemma mul_zero_count (q : Z) : JS.mul JS.zero (JS.of_Z q) = JS.zero.
Proof.
  unfold JS.zero, JS.of_Z. simpl. f_equal.
  replace (Qc_of_Z 0) with 0%Qc by (apply Qc_is_canon; reflexivity).
  apply Qcmult_0_l.
Qed.

(** C2 (as amended): prices play no part in the guards of the checkout.
    [handleCompleteSale] rejects, leaving the state as it was and sending
    nothing, exactly when the cart is empty or the payment is incomplete;
    otherwise it sends the sale, and every line whose price text is empty or
    not a number goes out with price 0 and line total 0. *)
Theorem unset_price_is_sent_as_zero (currentBranchId : string) (be : Backend)
    (st : State) :
  (canSubmit st = false <-> cart st = [] \/ isPaymentComplete st = false) /\
  (canSubmit st = false ->
   rejected st (handleCompleteSale currentBranchId be st)) /\
  (canSubmit st = true ->
   exists req : SaleRequest,
     sent_requests (snd (handleCompleteSale currentBranchId be st)) = [req] /\
     p_items req = map rpcItem (cart st) /\
     forall item : CartItem.t,
       item ∈ cart st -> price_unset (CartItem.price item) = true ->
       RpcItem.price (rpcItem item) = JS.zero /\
       RpcItem.total (rpcItem item) = JS.zero).
Proof.
  split; [|split].
  - unfold canSubmit. destruct (cart st) as [|item rest]; simpl.
    + split; auto.
    + split; [auto|]. intros [Hnil | Hpay]; [discriminate | exact Hpay].
  - apply handleCompleteSale_rejects.
  - intros Hcan. eexists. split; [apply handleCompleteSale_sends, Hcan|].
    split; [reflexivity|].
    intros item _ Hunset. unfold rpcItem. simpl.
    rewrite (price_value_unset _ Hunset). split; [reflexivity|].
    apply mul_zero_count.
Qed.

Lemma unset_price_is_sent_as_zero_witness :
  exists req : SaleRequest,
    sent_requests
      (snd (handleCompleteSale "branch-1" accepting_backend price_cleared))
    = [req] /\
    map RpcItem.price (p_items req) = [JS.zero].
Proof.
  destruct (unset_price_is_sent_as_zero "branch-1" accepting_backend
              price_cleared) as (_ & _ & Hsent).
  destruct Hsent as (req & Hreq & Hitems & _); [vm_compute; reflexivity|].
  exists req. split; [exact Hreq|]. rewrite Hitems. by_compute.
Defined.

(** C2, as stated, fails: a cart holding one line whose price field has been
    emptied, paid by a single method, passes both guards. *)
Lemma unset_price_blocks_submit_counterexample :
  map CartItem.price (cart price_cleared) = [PriceStr ""] /\
  has_unset_price price_cleared = true /\
  canSubmit price_cleared = true /\
  map (fun req => map RpcItem.price (p_items req))
    (sent_requests
       (snd (handleCompleteSale "branch-1" accepting_backend price_cleared)))
  = [[JS.zero]] /\
  ~ unset_price_blocks_submit.
Proof.
  repeat (split; [by_compute|]).
  intros claim.
  destruct (claim "branch-1" accepting_backend price_cleared) as [Hcan _].
  { vm_compute. reflexivity. }
  vm_compute in Hcan. discriminate Hcan.
Qed.

(** ** After a successful sale *)

Lemma resolve_customer_events (be : Backend) (st : State) :
  forallb is_customer_event (snd (resolve_customer be st)) = true.
Proof.
  unfold resolve_customer.
  repeat match goal with
  | |- context [if ?b then _ else _] => destruct b
  | |- context [match ?x with _ => _ end] => destruct x
  end; reflexivity.
Qed.

Lemma customer_events_no_toast (l : list Event) :
  forallb is_customer_event l = true -> succeeded l = false.
Proof.
  induction l as [|e l IH]; simpl; [reflexivity|].
  intros H. apply andb_true_iff in H as [He Hl].
  rewrite (IH Hl). destruct e; try discriminate; reflexivity.
Qed.

Lemma customer_events_no_timer (l : list Event) (ms : Z) :
  forallb is_customer_event l = true -> SetTimeout ms ∉ l.
Proof.
  intros H Hin. rewrite forallb_forall in H.
  apply list_elem_of_In in Hin. apply H in Hin. discriminate Hin.
Qed.

Lemma succeeded_app (l1 l2 : list Event) :
  succeeded (l1 ++ l2) = succeeded l1 || succeeded l2.
Proof. unfold succeeded. apply existsb_app. Qed.

(** A submission that shows the success toast ends in the state the timer's
    callback builds from the state at the time of the click. *)
Lemma submit_success (currentBranchId : string) (be : Backend) (st : State) :
  succeeded (snd (submit currentBranchId be st)) = true ->
  fst (submit currentBranchId be st) =
  mkState [] false (paymentMethod st) Splits.zero false "0" false None "" "".
Proof.
  unfold submit, handleCompleteSale.
  destruct (length (cart st) =? 0)%nat; [simpl; discriminate|].
  destruct (negb (isPaymentComplete st)); [simpl; discriminate|].
  pose proof (resolve_customer_events be st) as Hcust.
  destruct (resolve_customer be st) as [customerId customer_events].
  simpl in Hcust.
  pose proof (customer_events_no_toast _ Hcust) as Hnone.
  destruct (process_sale be _) as [message|].
  - rewrite bool_decide_eq_false_2.
    + simpl. rewrite succeeded_app, Hnone. simpl.
      unfold sale_error_toast. destruct (_ && _); discriminate.
    + intros Hin. apply elem_of_app in Hin as [Hin | Hin].
      * exact (customer_events_no_timer _ _ Hcust Hin).
      * unfold sale_error_toast in Hin.
        destruct (_ && _); repeat (apply elem_of_cons in Hin as [Hin | Hin];
          [discriminate|]); inversion Hin.
  - rewrite bool_decide_eq_true_2.
    + intros _. reflexivity.
    + rewrite !elem_of_app. right. right. right.
      apply elem_of_cons. right. apply elem_of_cons. left. reflexivity.
Qed.

(** C6 (as amended): after every successful submission, whatever the state
    before, the cart is empty, the discount reads 0, the split amounts are
    all 0 and the tender is in single mode; the single method is the one that
    was selected before the sale, it is not set back to cash. *)
Theorem submit_clears_state (currentBranchId : string) (be : Backend)
    (st : State) :
  succeeded (snd (submit currentBranchId be st)) = true ->
  let st' := fst (submit currentBranchId be st) in
  cart st' = [] /\
  discount st' = "0" /\
  discountAmount st' = JS.zero /\
  paymentSplits st' = Splits.zero /\
  showSplitPayment st' = false /\
  paymentMethod st' = paymentMethod st.
Proof.
  intros Hok st'. subst st'. rewrite (submit_success _ _ _ Hok).
  repeat split.
Qed.

Lemma submit_clears_state_witness :
  let st' := fst (submit "branch-1" accepting_backend paid_by_bank) in
  cart st' = [] /\
  discount st' = "0" /\
  discountAmount st' = JS.zero /\
  paymentSplits st' = Splits.zero /\
  showSplitPayment st' = false /\
  paymentMethod st' = paymentMethod paid_by_bank.
Proof.
  apply (submit_clears_state "branch-1" accepting_backend paid_by_bank).
  vm_compute. reflexivity.
Defined.

(** C6, as stated, fails: after a sale paid by bank transfer the selected
    method is still bank. *)
Lemma submit_resets_to_default_counterexample :
  succeeded (snd (submit "branch-1" accepting_backend paid_by_bank)) = true /\
  paymentMethod (fst (submit "branch-1" accepting_backend paid_by_bank))
  = Bank /\
  ~ submit_resets_to_default.
Proof.
  repeat (split; [by_compute|]).
  intros claim.
  destruct (claim "branch-1" accepting_backend paid_by_bank)
    as (_ & _ & _ & Hmethod & _).
  { vm_compute. reflexivity. }
  vm_compute in Hmethod. discriminate Hmethod.
Qed.

(** ** Quantities and stock *)

Section Quantities.

Variable productId : string.

Lemma is_product_refl : forall item : CartItem.t,
  CartItem.productId item = productId -> is_product productId item = true.
Proof. intros item <-. apply String.eqb_refl. Qed.

Lemma is_product_eq (item : CartItem.t) :
  is_product productId item = true -> CartItem.productId item = productId.
Proof. unfold is_product. apply String.eqb_eq. Qed.

Lemma find_product_lines (c : list CartItem.t) :
  List.find (is_product productId) c = head (product_lines productId c).
Proof.
  unfold product_lines. induction c as [|item c IH]; simpl; [reflexivity|].
  rewrite filter_cons.
  destruct (is_product productId item) eqn:E.
  - rewrite decide_True by exact I. reflexivity.
  - rewrite decide_False by exact id. exact IH.
Qed.

Lemma product_lines_app (c1 c2 : list CartItem.t) :
  product_lines productId (c1 ++ c2) =
  product_lines productId c1 ++ product_lines productId c2.
Proof. unfold product_lines. apply filter_app. Qed.

(** Rewriting the lines in place keeps the lines of each product together,
    as long as no line changes product. *)
Lemma product_lines_map (f : CartItem.t -> CartItem.t) (c : list CartItem.t) :
  (forall item, CartItem.productId (f item) = CartItem.productId item) ->
  product_lines productId (map f c) = map f (product_lines productId c).
Proof.
  intros Hid. unfold product_lines.
  induction c as [|item c IH]; simpl; [reflexivity|].
  rewrite !filter_cons.
  assert (E : is_product productId (f item) = is_product productId item).
  { unfold is_product. rewrite Hid. reflexivity. }
  rewrite E. destruct (is_product productId item).
  - rewrite !decide_True by exact I. simpl. f_equal. exact IH.
  - rewrite !decide_False by exact id. exact IH.
Qed.

Lemma line_within_elem (stock : Z) (c : list CartItem.t) (item : CartItem.t) :
  line_within productId stock c = true ->
  item ∈ c -> CartItem.productId item = productId ->
  1 <= CartItem.quantity item <= stock /\ CartItem.stock item = stock.
Proof.
  unfold line_within. intros Hinv Hin Hid.
  assert (Hline : item ∈ product_lines productId c).
  { unfold product_lines. apply list_elem_of_filter. split; [|exact Hin].
    rewrite (is_product_refl _ Hid). exact I. }
  destruct (product_lines productId c) as [|line [|other more]];
    [inversion Hline | | discriminate].
  apply list_elem_of_singleton in Hline as ->. lia.
Qed.

Lemma addToCart_line_within (stock : Z) (product : Product.t) (st : State) :
  1 <= stock ->
  Product.id product = productId ->
  Product.stock product = stock ->
  line_within productId stock (cart st) = true ->
  line_within productId stock (cart (fst (addToCart product st))) = true.
Proof.
  intros Hstock Hid Hs Hinv. unfold addToCart. rewrite Hid, Hs.
  rewrite find_product_lines. unfold line_within in *.
  destruct (product_lines productId (cart st)) as [|line [|other more]] eqn:E;
    [| |discriminate]; simpl.
  - rewrite product_lines_app, E. unfold product_lines. simpl.
    rewrite filter_cons, decide_True.
    + simpl. lia.
    + unfold is_product. simpl. rewrite String.eqb_refl. exact I.
  - destruct (CartItem.quantity line >=? stock) eqn:Hq; simpl.
    + rewrite E. exact Hinv.
    + rewrite product_lines_map, E.
      * simpl.
        assert (Hl : line ∈ product_lines productId (cart st))
          by (rewrite E; left).
        apply list_elem_of_filter in Hl as [Hl _].
        destruct (is_product productId line); [simpl; lia | contradiction].
      * intros item. destruct (is_product productId item); reflexivity.
Qed.

Lemma updateQuantity_item_id (pid : string) (change : Z) (item : CartItem.t) :
  CartItem.productId (fst (updateQuantity_item pid change item)) =
  CartItem.productId item.
Proof.
  unfold updateQuantity_item.
  destruct (is_product pid item); [|reflexivity].
  destruct (_ <=? 0); [reflexivity|].
  destruct (_ >? _); reflexivity.
Qed.

Lemma updateQuantity_line_within (stock change : Z) (st : State) :
  line_within productId stock (cart st) = true ->
  line_within productId stock
    (cart (fst (updateQuantity productId change st))) = true.
Proof.
  intros Hinv. unfold updateQuantity. simpl. rewrite map_map.
  unfold line_within in *.
  rewrite product_lines_map by apply updateQuantity_item_id.
  destruct (product_lines productId (cart st)) as [|line [|other more]];
    [reflexivity| |discriminate].
  simpl. unfold updateQuantity_item.
  destruct (is_product productId line); [|exact Hinv].
  destruct (_ <=? 0) eqn:Hlow; [exact Hinv|].
  destruct (_ >? _) eqn:Hhigh; [exact Hinv|]. simpl. lia.
Qed.

(** A rejected [addToCart], the one that shows the stock alert, changes
    nothing. *)
Lemma addToCart_rejected (product : Product.t) (st : State) :
  snd (addToCart product st) <> [] -> fst (addToCart product st) = st.
Proof.
  unfold addToCart.
  destruct (List.find _ _) as [existing|]; [|intros H; contradiction H; reflexivity].
  destruct (_ >=? _); [reflexivity|]. intros H. contradiction H. reflexivity.
Qed.

Lemma setCart_same (st : State) : setCart (cart st) st = st.
Proof. destruct st. reflexivity. Qed.

Lemma updateQuantity_items_rejected (change : Z) (c : list CartItem.t) :
  (forall item : CartItem.t,
     item ∈ c -> CartItem.productId item = productId ->
     CartItem.quantity item + change <= 0 \/
     CartItem.quantity item + change > CartItem.stock item) ->
  map (fun item => fst (updateQuantity_item productId change item)) c = c.
Proof.
  induction c as [|item c IH]; simpl; intros Hout; [reflexivity|].
  f_equal.
  - unfold updateQuantity_item.
    destruct (is_product productId item) eqn:E; [|reflexivity].
    destruct (Hout item) as [Hlow | Hhigh];
      [left | apply is_product_eq, E | | ].
    + destruct (_ <=? 0) eqn:H0; [reflexivity | lia].
    + destruct (_ <=? 0); [reflexivity|].
      destruct (_ >? _) eqn:H1; [reflexivity | lia].
  - apply IH. intros other Hin. apply Hout. right. exact Hin.
Qed.

(** An [updateQuantity] that would take the line to zero or below, or above
    the stock recorded in it, changes nothing. *)
Lemma updateQuantity_rejected (change : Z) (st : State) :
  (forall item : CartItem.t,
     item ∈ cart st -> CartItem.productId item = productId ->
     CartItem.quantity item + change <= 0 \/
     CartItem.quantity item + change > CartItem.stock item) ->
  fst (updateQuantity productId change st) = st.
Proof.
  intros Hout. unfold updateQuantity. simpl. rewrite map_map.
  rewrite (updateQuantity_items_rejected change (cart st) Hout).
  apply setCart_same.
Qed.

End Quantities.

Lemma run_line_within (productId : string) (stock : Z)
    (actions : list Action) :
  1 <= stock ->
  forallb (targets_with_stock productId stock) actions = true ->
  forall st : State,
    line_within productId stock (cart st) = true ->
    line_within productId stock (cart (run actions st)) = true.
Proof.
  intros Hstock. induction actions as [|a actions IH]; simpl;
    intros Hall st Hinv; [exact Hinv|].
  apply andb_true_iff in Hall as [Ha Hall].
  apply IH; [exact Hall|].
  destruct a; simpl in Ha; try discriminate.
  - apply andb_true_iff in Ha as [Hid Hs].
    apply String.eqb_eq in Hid. apply Z.eqb_eq in Hs.
    apply addToCart_line_within; assumption.
  - apply String.eqb_eq in Ha. subst. simpl.
    apply updateQuantity_line_within. exact Hinv.
Qed.

(** While the catalogue keeps showing one stock figure for the product, the
    two tests agree: for every sequence of [addToCart] and [updateQuantity]
    calls on one product in which every catalogue entry added shows the same
    stock, at least 1, the product has at most one line, whose quantity never
    drops below 1 and never exceeds that stock, the stock recorded in the
    line; and a rejected call, whether [addToCart] showing the stock alert or
    [updateQuantity] asked to go to zero or below or above the recorded
    stock, leaves the state as it was. *)
Lemma quantity_ceiling (productId : string) (stock : Z)
    (actions : list Action) (st : State) :
  1 <= stock ->
  forallb (targets_with_stock productId stock) actions = true ->
  line_within productId stock (cart st) = true ->
  (forall item : CartItem.t,
     item ∈ cart (run actions st) ->
     CartItem.productId item = productId ->
     1 <= CartItem.quantity item <= CartItem.stock item
     /\ CartItem.stock item = stock) /\
  (forall (product : Product.t) (st' : State),
     snd (addToCart product st') <> [] ->
     fst (addToCart product st') = st') /\
  (forall (change : Z) (st' : State),
     (forall item : CartItem.t,
        item ∈ cart st' -> CartItem.productId item = productId ->
        CartItem.quantity item + change <= 0 \/
        CartItem.quantity item + change > CartItem.stock item) ->
     fst (updateQuantity productId change st') = st').
Proof.
  intros Hstock Hall Hinv. split; [|split].
  - intros item Hin Hid.
    destruct (line_within_elem productId stock _ item
                (run_line_within _ _ _ Hstock Hall st Hinv) Hin Hid)
      as [Hq Hs].
    rewrite Hs. auto.
  - apply addToCart_rejected.
  - apply updateQuantity_rejected.
Qed.

Lemma quantity_ceiling_witness :
  cart (run B_actions initial) = [B_line] /\
  1 <= CartItem.quantity B_line <= CartItem.stock B_line /\
  CartItem.stock B_line = 2.
Proof.
  split; [by_compute|].
  destruct (quantity_ceiling "B" 2 B_actions initial) as [Hbound _].
  - lia.
  - reflexivity.
  - reflexivity.
  - apply Hbound; [by_compute | reflexivity].
Defined.

(** C7 (code bug): the two handlers that raise the stock alert test
    different stock figures.  A is added while the catalogue shows a stock of
    1, which the line records.  [updateQuantity] by +1 is then refused with
    the alert, the line's recorded stock being reached.  After the catalogue
    is fetched again with a stock of 2, [addToCart] on the same product tests
    the catalogue entry instead, shows no alert and takes the line to 2,
    above the stock of 1 it recorded; so the quantity ceiling does not hold
    of every sequence of the two calls. *)
Theorem addToCart_ignores_recorded_stock :
  let one_A :=
    CartItem.mk "A" "Product A" 1 (PriceNum (JS.of_Z 100)) (JS.of_Z 100) 1 in
  let st := run [AddToCart scarce_A] initial in
  cart st = [one_A] /\
  updateQuantity "A" 1 st = (st, [Alert "Not enough stock available"]) /\
  addToCart restocked_A st
  = (setCart [CartItem.with_quantity 2 one_A] st, []) /\
  cart (run [AddToCart scarce_A; AddToCart restocked_A] initial)
  = [CartItem.mk "A" "Product A" 2 (PriceNum (JS.of_Z 100)) (JS.of_Z 100) 1]
  /\ ~ quantity_within_recorded_stock.
Proof.
  cbv zeta.
  split; [by_compute|]. split; [by_compute|]. split; [by_compute|].
  split; [by_compute|].
  intros claim.
  specialize (claim "A" [AddToCart scarce_A; AddToCart restocked_A] eq_refl
                (CartItem.mk "A" "Product A" 2 (PriceNum (JS.of_Z 100))
                   (JS.of_Z 100) 1)).
  simpl in claim. destruct claim as [_ Hle].
  - by_compute.
  - reflexivity.
  - lia.
Qed.

(** ** The subtotal *)

Section Subtotal.

Lemma map_price_text_empty (f : CartItem.t -> CartItem.t)
    (c : list CartItem.t) :
  (forall item, price_text_empty item -> price_text_empty (f item)) ->
  Forall price_text_empty c -> Forall price_text_empty (map f c).
Proof.
  intros Hf Hc. induction Hc as [|item c Hitem Hc IH]; simpl;
    constructor; auto.
Qed.

Lemma addToCart_price_text (product : Product.t) (st : State) :
  Forall price_text_empty (cart st) ->
  Forall price_text_empty (cart (fst (addToCart product st))).
Proof.
  intros Hc. unfold addToCart.
  destruct (List.find _ _) as [existing|]; simpl.
  - destruct (_ >=? _); simpl; [exact Hc|].
    apply map_price_text_empty; [|exact Hc].
    intros item Hitem. destruct (is_product _ item); exact Hitem.
  - apply Forall_app. split; [exact Hc|].
    constructor; [exact I | constructor].
Qed.

Lemma updateQuantity_price_text (productId : string) (change : Z)
    (st : State) :
  Forall price_text_empty (cart st) ->
  Forall price_text_empty (cart (fst (updateQuantity productId change st))).
Proof.
  intros Hc. unfold updateQuantity. simpl. rewrite map_map.
  apply map_price_text_empty; [|exact Hc].
  intros item Hitem. unfold updateQuantity_item.
  destruct (is_product _ item); [|exact Hitem].
  destruct (_ <=? 0); [exact Hitem|].
  destruct (_ >? _); exact Hitem.
Qed.

Lemma updatePrice_price_text (productId newPrice : string) (st : State) :
  Forall price_text_empty (cart st) ->
  Forall price_text_empty (cart (fst (updatePrice productId newPrice st))).
Proof.
  intros Hc. unfold updatePrice.
  destruct (String.eqb newPrice ""); simpl.
  - apply map_price_text_empty; [|exact Hc].
    intros item Hitem. destruct (is_product _ item); [reflexivity | exact Hitem].
  - destruct (_ || _); simpl; [exact Hc|].
    apply map_price_text_empty; [|exact Hc].
    intros item Hitem. destruct (is_product _ item); [exact I | exact Hitem].
Qed.

Lemma handlePriceBlur_price_text (productId : string) (st : State) :
  Forall price_text_empty (cart st) ->
  Forall price_text_empty (cart (fst (handlePriceBlur productId st))).
Proof.
  intros Hc. unfold handlePriceBlur. simpl.
  apply map_price_text_empty; [|exact Hc].
  intros item Hitem. destruct (_ && _); [exact I | exact Hitem].
Qed.

Lemma removeFromCart_price_text (productId : string) (st : State) :
  Forall price_text_empty (cart st) ->
  Forall price_text_empty (cart (fst (removeFromCart productId st))).
Proof.
  intros Hc. unfold removeFromCart. simpl.
  rewrite Forall_forall in Hc. apply Forall_forall. intros item Hin.
  apply list_elem_of_filter in Hin as [_ Hin]. apply Hc, Hin.
Qed.

(** A submission leaves the cart as it was or empties it. *)
Lemma submit_cart (currentBranchId : string) (be : Backend) (st : State) :
  cart (fst (submit currentBranchId be st)) = cart st \/
  cart (fst (submit currentBranchId be st)) = [].
Proof.
  unfold submit, handleCompleteSale.
  destruct (length (cart st) =? 0)%nat; [left; reflexivity|].
  destruct (negb (isPaymentComplete st)); [left; reflexivity|].
  destruct (resolve_customer be st) as [customerId customer_events].
  destruct (process_sale be _) as [message|];
    destruct (bool_decide _); simpl; auto.
Qed.

Lemma perform_price_text (a : Action) (st : State) :
  Forall price_text_empty (cart st) ->
  Forall price_text_empty (cart (fst (perform a st))).
Proof.
  intros Hc. destruct a; simpl; try exact Hc.
  - apply addToCart_price_text, Hc.
  - apply updateQuantity_price_text, Hc.
  - apply updatePrice_price_text, Hc.
  - apply handlePriceBlur_price_text, Hc.
  - apply removeFromCart_price_text, Hc.
  - unfold updatePaymentSplit. destruct (JS.ltb _ _); exact Hc.
  - destruct (submit_cart currentBranchId be st) as [-> | ->];
      [exact Hc | constructor].
Qed.

Lemma run_price_text (actions : list Action) (st : State) :
  Forall price_text_empty (cart st) ->
  Forall price_text_empty (cart (run actions st)).
Proof.
  revert st. induction actions as [|a actions IH]; simpl; intros st Hc;
    [exact Hc|].
  apply IH, perform_price_text, Hc.
Qed.

(** On a line whose price text, if any, is empty, the price the source
    computes is the resolved price. *)
Lemma price_value_resolved (item : CartItem.t) :
  price_text_empty item ->
  price_value (CartItem.price item) = resolvedPrice item.
Proof.
  unfold price_text_empty, resolvedPrice.
  destruct (CartItem.price item) as [n|s]; [reflexivity|].
  intros ->. reflexivity.
Qed.

(** The source's running sum and the specification's, started from the
    same amount, stay equal line after line: each line adds the same
    product, the two factors swapped. *)
Lemma fold_subtotal (c : list CartItem.t) (acc : JS.number) :
  Forall price_text_empty c ->
  fold_left
    (fun sum item =>
       JS.add sum
         (JS.mul (price_value (CartItem.price item))
                 (JS.of_Z (CartItem.quantity item))))
    c acc
  = fold_left
      (fun sum item =>
         JS.add sum
           (JS.mul (JS.of_Z (CartItem.quantity item)) (resolvedPrice item)))
      c acc.
Proof.
  intros Hc. revert acc.
  induction Hc as [|item c Hitem Hc IH]; simpl; intros acc; [reflexivity|].
  rewrite (price_value_resolved _ Hitem), (mul_comm (resolvedPrice item)).
  apply IH.
Qed.

(** C8: in every state the operator can reach from the freshly mounted
    component, by any sequence of cart, discount, tender and checkout
    actions, the subtotal the source computes is the sum over the lines, in
    cart order, of quantity times resolved price, an unset price counting as
    0. *)
Theorem subtotal_is_sum_of_line_totals (actions : list Action) :
  subtotal (run actions initial) =
  sum_of_line_totals (cart (run actions initial)).
Proof.
  unfold subtotal, cart_subtotal, sum_of_line_totals.
  apply fold_subtotal, run_price_text. constructor.
Qed.

End Subtotal.

(** ** The tender *)

Section Tender.

Lemma finite_inv (x : JS.number) :
  JS.is_finite x = true -> exists q : Qc, x = JS.Fin q.
Proof. destruct x; try discriminate. eauto. Qed.

Lemma splits_finite_inv (s : Splits.t) :
  splits_finite s = true ->
  exists c b t : Qc, s = Splits.mk (JS.Fin c) (JS.Fin b) (JS.Fin t).
Proof.
  destruct s as [[] [] []]; try discriminate. eauto.
Qed.


(** What [payAll] takes the other methods to hold: the split total less the
    method's own amount is the sum of the other two. *)
Lemma others_by_subtraction (method : PaymentMethod) (s : Splits.t) :
  splits_finite s = true ->
  JS.sub (splits_total s) (Splits.get method s) = others_total method s.
Proof.
  intros Hs. destruct (splits_finite_inv s Hs) as (c & b & t & ->).
  destruct method; simpl; f_equal; ring.
Qed.

Lemma splits_total_set (method : PaymentMethod) (v : Qc) (s : Splits.t) :
  splits_finite s = true ->
  splits_total (Splits.set method (JS.Fin v) s) =
  JS.add (JS.Fin v) (others_total method s).
Proof.
  intros Hs. destruct (splits_finite_inv s Hs) as (c & b & t & ->).
  destruct method; unfold splits_total; simpl; f_equal; ring.
Qed.

(** The state [payAll] leaves, on finite amounts: the method holds
    [Math.max(0, total - others)]. *)
Lemma payAll_finite (method : PaymentMethod) (st : State) :
  splits_finite (paymentSplits st) = true ->
  fst (payAll method st) =
  setPaymentSplits
    (Splits.set method
       (JS.max JS.zero
          (JS.sub (total st) (others_total method (paymentSplits st))))
       (paymentSplits st))
    st.
Proof.
  intros Hs. unfold payAll, totalPaid. simpl.
  rewrite (others_by_subtraction method _ Hs). reflexivity.
Qed.

End Tender.



(** ** Dormant split amounts *)



(** * The tender and the typed amounts at binary64 *)

(** ** Laws of the binary64 operations *)

Section Binary64.

Import F64.





(** *** The sign of a rounded number *)











End Binary64.

(** ** Worked values *)

(** The literals of the source and the amounts of the worked examples, as
    binary64 numbers: [0.01] is a little above one hundredth, 350 less
    349.99 a little below it, and the sum of 0.1, 0.2 and 0.3 depends on the
    order in which it is taken. *)
Example binary64_examples :
  Sell64.epsilon = S754_finite false 5764607523034235 (-59) /\
  F64.parseFloat "349.99" = S754_finite false 6157089193685156 (-44) /\
  F64.sub (F64.of_Z 350) (F64.parseFloat "349.99")
  = F64.parseFloat "0.009999999999990905" /\
  F64.add (F64.add (F64.parseFloat "0.1") (F64.parseFloat "0.2"))
          (F64.parseFloat "0.3")
  = F64.parseFloat "0.6000000000000001" /\
  F64.add (F64.parseFloat "0.1")
          (F64.add (F64.parseFloat "0.2") (F64.parseFloat "0.3"))
  = F64.parseFloat "0.6" /\
  F64.parseFloat "0.6" <> F64.parseFloat "0.6000000000000001" /\
  F64.parseFloat "  -3e2x" = F64.neg (F64.of_Z 300) /\
  F64.parseFloat "-1e-400" = S754_zero true /\
  F64.parseFloat "1e400" = S754_infinity false /\
  F64.parseFloat "5e-324" = S754_finite false 1 (-1074) /\
  F64.parseFloat "1.7976931348623157e308"
  = S754_finite false 9007199254740991 971 /\
  F64.parseFloat "." = S754_nan /\
  F64.parseFloat "abc" = S754_nan.
Proof. repeat split; by_compute. Qed.

(** ** The tender gate *)

Section Tender64.

Import Sell64.



(** At the boundary the gate follows the binary64 difference: 349.99 typed
    against a total of 350 leaves a little less than [0.01], and the sale
    goes through. *)
Example tender_gate_boundary :
  let st := split_of "349.99" "0" "0" in
  total st = F64.of_Z 350 /\
  isPaymentComplete st = true /\
  canSubmit st = true /\
  handleCompleteSale (fun st' => st') st = inr st.
Proof. cbv zeta. repeat split; by_compute. Qed.

(** ** Paying the remainder *)







End Tender64.

(** ** Typed prices and amounts *)

Section TypedAmounts.

Import Sell64.




End TypedAmounts.

(** * Further properties *)

(** ** The shape of the cart *)

Section CartShape.

Lemma find_none_no_line (productId : string) (c : list CartItem.t) :
  List.find (is_product productId) c = None ->
  forall other, other ∈ c -> CartItem.productId other <> productId.
Proof.
  intros Hnone other Hin Hid.
  apply list_elem_of_In in Hin.
  apply (find_none _ _ Hnone) in Hin.
  rewrite (is_product_refl productId other Hid) in Hin. discriminate Hin.
Qed.

Lemma addToCart_cart_change (product : Product.t) (st : State) :
  cart_change (cart st) (cart (fst (addToCart product st))).
Proof.
  unfold addToCart.
  destruct (List.find _ _) as [existing|] eqn:Hfind; simpl.
  - destruct (_ >=? _); simpl; [constructor|].
    apply change_lines; intros item;
      destruct (is_product _ item); simpl; try reflexivity; lia.
  - apply change_append; [|reflexivity]. simpl.
    apply find_none_no_line, Hfind.
Qed.

Lemma updateQuantity_cart_change (productId : string) (change : Z)
    (st : State) :
  cart_change (cart st) (cart (fst (updateQuantity productId change st))).
Proof.
  unfold updateQuantity. simpl. rewrite map_map.
  apply change_lines; intros item; unfold updateQuantity_item;
    destruct (is_product _ item); simpl; try reflexivity; try lia;
    destruct (_ <=? 0) eqn:Hlow; simpl; try reflexivity; try lia;
    destruct (_ >? _); simpl; try reflexivity; lia.
Qed.

Lemma updatePrice_cart_change (productId newPrice : string) (st : State) :
  cart_change (cart st) (cart (fst (updatePrice productId newPrice st))).
Proof.
  unfold updatePrice. destruct (String.eqb newPrice ""); simpl.
  - apply change_lines; intros item; destruct (is_product _ item);
      simpl; try reflexivity; lia.
  - destruct (_ || _); simpl; [constructor|].
    apply change_lines; intros item; destruct (is_product _ item);
      simpl; try reflexivity; lia.
Qed.

Lemma handlePriceBlur_cart_change (productId : string) (st : State) :
  cart_change (cart st) (cart (fst (handlePriceBlur productId st))).
Proof.
  unfold handlePriceBlur. simpl.
  apply change_lines; intros item; destruct (_ && _);
    simpl; try reflexivity; lia.
Qed.

(** Whatever the action, the cart changes in one of the five ways. *)
Lemma perform_cart_change (a : Action) (st : State) :
  cart_change (cart st) (cart (fst (perform a st))).
Proof.
  destruct a; cbn [perform].
  - apply addToCart_cart_change.
  - apply updateQuantity_cart_change.
  - apply updatePrice_cart_change.
  - apply handlePriceBlur_cart_change.
  - apply change_remove.
  - apply change_none.
  - apply change_none.
  - apply change_none.
  - unfold updatePaymentSplit. destruct (JS.ltb _ _); apply change_none.
  - apply change_none.
  - apply change_none.
  - destruct (submit_cart currentBranchId be st) as [-> | ->];
      [apply change_none | apply change_clear].
Qed.

Lemma cart_ids_map (f : CartItem.t -> CartItem.t) (c : list CartItem.t) :
  (forall item, CartItem.productId (f item) = CartItem.productId item) ->
  cart_ids (map f c) = cart_ids c.
Proof.
  intros Hid. unfold cart_ids. rewrite map_map.
  apply map_ext. exact Hid.
Qed.

Lemma cart_ids_filter_NoDup (P : CartItem.t -> bool) (c : list CartItem.t) :
  NoDup (cart_ids c) -> NoDup (cart_ids (filter (fun item => P item) c)).
Proof.
  unfold cart_ids. induction c as [|item c IH]; simpl; intros Hc.
  - constructor.
  - apply NoDup_cons in Hc as [Hnew Hc]. rewrite filter_cons.
    destruct (decide (P item)); [|apply IH, Hc].
    simpl. apply NoDup_cons. split; [|apply IH, Hc].
    intros Hin. apply Hnew.
    apply list_elem_of_fmap in Hin as (other & Hid & Hin).
    apply list_elem_of_filter in Hin as [_ Hin].
    apply list_elem_of_fmap. eauto.
Qed.

Lemma cart_change_NoDup (c c' : list CartItem.t) :
  cart_change c c' -> NoDup (cart_ids c) -> NoDup (cart_ids c').
Proof.
  intros Hchange Hc. destruct Hchange as [|f Hid _|item Hnew _|pid|].
  - exact Hc.
  - rewrite (cart_ids_map f c Hid). exact Hc.
  - unfold cart_ids. rewrite map_app. simpl.
    apply NoDup_app. split; [exact Hc|]. split; [|apply NoDup_singleton].
    intros id Hin Hin'. apply list_elem_of_singleton in Hin' as ->.
    apply list_elem_of_fmap in Hin as (other & Hid & Hin).
    exact (Hnew other Hin (eq_sym Hid)).
  - apply cart_ids_filter_NoDup, Hc.
  - constructor.
Qed.

Lemma cart_change_quantities (c c' : list CartItem.t) :
  cart_change c c' ->
  Forall (fun item => 1 <= CartItem.quantity item) c ->
  Forall (fun item => 1 <= CartItem.quantity item) c'.
Proof.
  intros Hchange Hc. destruct Hchange as [|f _ Hq|item _ Hone|pid|].
  - exact Hc.
  - induction Hc; simpl; constructor; auto.
  - apply Forall_app. split; [exact Hc|].
    constructor; [lia | constructor].
  - rewrite Forall_forall in Hc. apply Forall_forall. intros item Hin.
    apply list_elem_of_filter in Hin as [_ Hin]. apply Hc, Hin.
  - constructor.
Qed.

Lemma run_NoDup (actions : list Action) (st : State) :
  NoDup (cart_ids (cart st)) ->
  NoDup (cart_ids (cart (run actions st))).
Proof.
  revert st. induction actions as [|a actions IH]; simpl; intros st Hc;
    [exact Hc|].
  apply IH. exact (cart_change_NoDup _ _ (perform_cart_change a st) Hc).
Qed.

(** In a cart with one line per product, the line [find] meets first for a
    product is the product's line. *)
Lemma find_line (line : CartItem.t) (c : list CartItem.t) :
  NoDup (cart_ids c) -> line ∈ c ->
  List.find (is_product (CartItem.productId line)) c = Some line.
Proof.
  induction c as [|item c IH]; simpl; intros Hc Hin; [inversion Hin|].
  apply NoDup_cons in Hc as [Hnew Hc].
  destruct (is_product (CartItem.productId line) item) eqn:E.
  - apply elem_of_cons in Hin as [-> | Hin]; [reflexivity|].
    exfalso. apply Hnew. apply is_product_eq in E. rewrite E.
    apply list_elem_of_fmap. eauto.
  - apply elem_of_cons in Hin as [-> | Hin]; [|apply IH; assumption].
    rewrite is_product_refl in E by reflexivity. discriminate E.
Qed.

(** X1: one line per product.  From any state whose cart lines are for
    distinct products, and so from the freshly mounted component, every
    sequence of actions leaves a cart whose lines are for distinct products.
    In such a cart [addToCart] on a product that has a line, with a quantity
    below the stock of the catalogue entry clicked, adds no line and shows
    no alert: it raises the quantity of that line by one and leaves every
    line of another product as it was. *)
Theorem cart_products_distinct (actions : list Action) (st : State) :
  NoDup (cart_ids (cart st)) ->
  let st' := run actions st in
  NoDup (cart_ids (cart st')) /\
  forall (product : Product.t) (line : CartItem.t),
    line ∈ cart st' ->
    CartItem.productId line = Product.id product ->
    CartItem.quantity line < Product.stock product ->
    let after := addToCart product st' in
    snd after = [] /\
    cart_ids (cart (fst after)) = cart_ids (cart st') /\
    CartItem.with_quantity (CartItem.quantity line + 1) line
      ∈ cart (fst after) /\
    (forall other : CartItem.t,
       CartItem.productId other <> Product.id product ->
       other ∈ cart (fst after) <-> other ∈ cart st').
Proof.
  intros Hc. cbv zeta. pose proof (run_NoDup actions st Hc) as Hc'.
  split; [exact Hc'|].
  generalize dependent (run actions st). clear Hc. intros st' Hc'.
  intros product line Hin Hid Hq.
  unfold addToCart. rewrite <- Hid, (find_line line (cart st') Hc' Hin).
  destruct (CartItem.quantity line >=? Product.stock product) eqn:Hfull;
    [lia|]. simpl.
  split; [reflexivity|]. split; [|split].
  - apply cart_ids_map. intros item.
    destruct (is_product _ item); reflexivity.
  - apply list_elem_of_fmap. exists line. split; [|exact Hin].
    rewrite is_product_refl by reflexivity. reflexivity.
  - intros other Hother. rewrite list_elem_of_fmap. split.
    + intros (item & -> & Hitem).
      destruct (is_product (CartItem.productId line) item) eqn:E;
        [|exact Hitem].
      contradiction Hother. simpl. apply is_product_eq, E.
    + intros Hitem. exists other. split; [|exact Hitem].
      destruct (is_product (CartItem.productId line) other) eqn:E;
        [|reflexivity].
      contradiction Hother. apply is_product_eq, E.
Qed.

Lemma cart_products_distinct_witness :
  cart_ids (cart cart_350) = ["A"; "B"] /\
  cart_ids (cart (fst (addToCart product_A cart_350))) = ["A"; "B"] /\
  CartItem.mk "A" "Product A" 4 (PriceNum (JS.of_Z 100)) (JS.of_Z 100) 5
    ∈ cart (fst (addToCart product_A cart_350)).
Proof.
  split; [reflexivity|].
  destruct (cart_products_distinct
              [AddToCart product_A; AddToCart product_A; AddToCart product_A;
               AddToCart product_B] initial) as [_ Hadd].
  - simpl. constructor.
  - destruct (Hadd product_A
                (CartItem.mk "A" "Product A" 3 (PriceNum (JS.of_Z 100))
                   (JS.of_Z 100) 5)) as (_ & Hids & Hline & _).
    + by_compute.
    + reflexivity.
    + simpl. lia.
    + split; [exact Hids | exact Hline].
Defined.

Lemma run_quantities_positive (actions : list Action) (st : State) :
  Forall (fun item => 1 <= CartItem.quantity item) (cart st) ->
  Forall (fun item => 1 <= CartItem.quantity item) (cart (run actions st)).
Proof.
  revert st. induction actions as [|a actions IH]; simpl; intros st Hc;
    [exact Hc|].
  apply IH. exact (cart_change_quantities _ _ (perform_cart_change a st) Hc).
Qed.

(** X2: quantities stay positive.  In every state reached from the freshly
    mounted component, by any sequence of actions on any products and
    whatever their stock, every cart line holds a quantity of at least 1:
    no handler ever stores zero or a negative quantity. *)
Theorem cart_quantities_positive (actions : list Action) :
  Forall (fun item => 1 <= CartItem.quantity item)
         (cart (run actions initial)).
Proof. apply run_quantities_positive. constructor. Qed.

End CartShape.

(** ** Removing a line *)

Section Removal.

Lemma filter_keeps_all (P : CartItem.t -> bool) (c : list CartItem.t) :
  (forall item, item ∈ c -> P item = true) ->
  filter (fun item => P item) c = c.
Proof.
  induction c as [|item c IH]; intros Hall; [reflexivity|].
  rewrite filter_cons, decide_True.
  - f_equal. apply IH. intros other Hin. apply Hall. right. exact Hin.
  - rewrite Hall by left. exact I.
Qed.

(** X3: [removeFromCart] deletes the product's line and nothing else.  The
    lines left are exactly the lines for other products, in their earlier
    order; removing a product that has no line leaves the state as it was. *)
Theorem removeFromCart_removes (productId : string) (st : State) :
  let st' := fst (removeFromCart productId st) in
  (forall item : CartItem.t,
     item ∈ cart st' <->
     item ∈ cart st /\ CartItem.productId item <> productId) /\
  sublist (cart st') (cart st) /\
  ((forall item, item ∈ cart st -> CartItem.productId item <> productId) ->
   st' = st).
Proof.
  unfold removeFromCart. simpl. split; [|split].
  - intros item. rewrite list_elem_of_filter. split.
    + intros [Hkeep Hin]. split; [exact Hin|]. intros Hid.
      rewrite (is_product_refl productId item Hid) in Hkeep. exact Hkeep.
    + intros [Hin Hid]. split; [|exact Hin].
      destruct (is_product productId item) eqn:E; [|exact I].
      apply is_product_eq in E. contradiction.
  - apply sublist_filter.
  - intros Hnone. rewrite filter_keeps_all; [apply setCart_same|].
    intros item Hin. apply negb_true_iff.
    destruct (is_product productId item) eqn:E; [|reflexivity].
    apply is_product_eq in E. exfalso. exact (Hnone item Hin E).
Qed.

(** X4: adding a product that has no line yet and removing it again gives
    back the state before the two clicks. *)
Theorem removeFromCart_after_addToCart (product : Product.t) (st : State) :
  (forall item, item ∈ cart st ->
                CartItem.productId item <> Product.id product) ->
  fst (removeFromCart (Product.id product) (fst (addToCart product st))) = st.
Proof.
  intros Hnone. unfold addToCart.
  destruct (List.find _ _) as [existing|] eqn:Hfind.
  - apply find_some in Hfind as [Hin Hid].
    apply list_elem_of_In in Hin. apply is_product_eq in Hid.
    exfalso. exact (Hnone existing Hin Hid).
  - unfold removeFromCart. simpl. rewrite filter_app.
    rewrite filter_keeps_all.
    + rewrite filter_cons, decide_False.
      * rewrite filter_nil, app_nil_r. clear. destruct st. reflexivity.
      * unfold is_product. simpl. rewrite String.eqb_refl. exact id.
    + intros item Hin. apply negb_true_iff.
      destruct (is_product _ item) eqn:E; [|reflexivity].
      apply is_product_eq in E. exfalso. exact (Hnone item Hin E).
Qed.

Lemma removeFromCart_after_addToCart_witness :
  fst (removeFromCart "B" (fst (addToCart product_B paid_by_bank)))
  = paid_by_bank.
Proof.
  apply (removeFromCart_after_addToCart product_B paid_by_bank).
  intros item Hin. vm_compute in Hin.
  apply list_elem_of_singleton in Hin as ->. discriminate.
Defined.

End Removal.

(** ** Leaving the price field *)

Section PriceBlur.

Lemma cart_subtotal_map (f : CartItem.t -> CartItem.t) (c : list CartItem.t) :
  (forall item,
     price_value (CartItem.price (f item)) = price_value (CartItem.price item)
     /\ CartItem.quantity (f item) = CartItem.quantity item) ->
  cart_subtotal (map f c) = cart_subtotal c.
Proof.
  intros Hf. unfold cart_subtotal. generalize JS.zero.
  induction c as [|item c IH]; simpl; intros acc; [reflexivity|].
  destruct (Hf item) as [-> ->]. apply IH.
Qed.

(** X5: leaving a price field never changes the amount due.
    [handlePriceBlur] turns an emptied price into the number 0, which is what
    the subtotal already counted it as: the subtotal and the total are the
    same before and after, quantities and products are untouched, and
    afterwards no line of that product holds the empty text. *)
Theorem handlePriceBlur_keeps_totals (productId : string) (st : State) :
  let st' := fst (handlePriceBlur productId st) in
  subtotal st' = subtotal st /\
  total st' = total st /\
  map CartItem.quantity (cart st') = map CartItem.quantity (cart st) /\
  cart_ids (cart st') = cart_ids (cart st) /\
  (forall item : CartItem.t,
     item ∈ cart st' -> CartItem.productId item = productId ->
     price_is_empty (CartItem.price item) = false).
Proof.
  assert (Hsub : subtotal (fst (handlePriceBlur productId st)) = subtotal st).
  { unfold subtotal, handlePriceBlur. simpl. apply cart_subtotal_map.
    intros item.
    destruct (is_product productId item
              && price_is_empty (CartItem.price item)) eqn:E;
      [|split; reflexivity].
    apply andb_true_iff in E as [_ E].
    destruct (CartItem.price item) as [n|s] eqn:Hp; simpl in E;
      [discriminate|].
    apply String.eqb_eq in E. subst s. split; reflexivity. }
  cbv zeta. split; [exact Hsub|]. split; [|split; [|split]].
  - unfold total. rewrite Hsub. reflexivity.
  - unfold handlePriceBlur. simpl. rewrite map_map. apply map_ext.
    intros item. destruct (_ && _); reflexivity.
  - unfold handlePriceBlur. simpl. apply cart_ids_map.
    intros item. destruct (_ && _); reflexivity.
  - unfold handlePriceBlur. simpl. intros item Hin Hid.
    apply list_elem_of_fmap in Hin as (old & -> & _).
    destruct (is_product productId old) eqn:Hp;
      destruct (price_is_empty (CartItem.price old)) eqn:He; simpl in *;
      try reflexivity; try exact He.
    apply (is_product_refl productId) in Hid. congruence.
Qed.

End PriceBlur.

(** ** Stepping a quantity up and down *)

Section QuantitySteps.

Lemma updateQuantity_item_accepted (productId : string) (change : Z)
    (item : CartItem.t) :
  is_product productId item = true ->
  1 <= CartItem.quantity item + change <= CartItem.stock item ->
  fst (updateQuantity_item productId change item) =
  CartItem.with_quantity (CartItem.quantity item + change) item.
Proof.
  intros Hp Hq. unfold updateQuantity_item. rewrite Hp.
  destruct (CartItem.quantity item + change <=? 0) eqn:H0; [lia|].
  destruct (CartItem.quantity item + change >? CartItem.stock item) eqn:H1;
    [lia | reflexivity].
Qed.

(** X6: a quantity step that is accepted can be undone.  When every line of
    the product holds a quantity within 1 and its recorded stock, and stays
    within them after adding [change], then [updateQuantity] by [change]
    followed by [updateQuantity] by [- change] gives back the state before:
    plus followed by minus is no change unless plus was refused. *)
Theorem updateQuantity_undo (productId : string) (change : Z) (st : State) :
  (forall item : CartItem.t,
     item ∈ cart st -> CartItem.productId item = productId ->
     1 <= CartItem.quantity item <= CartItem.stock item /\
     1 <= CartItem.quantity item + change <= CartItem.stock item) ->
  fst (updateQuantity productId (- change)
         (fst (updateQuantity productId change st))) = st.
Proof.
  intros Hok. unfold updateQuantity. simpl. rewrite !map_map.
  assert (Hcart :
    map (fun item =>
           fst (updateQuantity_item productId (- change)
                  (fst (updateQuantity_item productId change item))))
        (cart st) = cart st).
  { induction (cart st) as [|item c IH]; simpl; [reflexivity|]. f_equal.
    - destruct (is_product productId item) eqn:Hp.
      + destruct (Hok item) as [Hq Hq']; [left | apply is_product_eq, Hp |].
        rewrite (updateQuantity_item_accepted _ _ _ Hp Hq').
        rewrite updateQuantity_item_accepted.
        * destruct item. unfold CartItem.with_quantity. simpl. f_equal. lia.
        * exact Hp.
        * simpl. lia.
      + unfold updateQuantity_item. rewrite Hp. simpl. rewrite Hp.
        reflexivity.
    - apply IH. intros other Hin. apply Hok. right. exact Hin. }
  rewrite Hcart. destruct st. reflexivity.
Qed.

Lemma updateQuantity_undo_witness :
  fst (updateQuantity "A" (-1) (fst (updateQuantity "A" 1 cart_350)))
  = cart_350.
Proof.
  apply (updateQuantity_undo "A" 1 cart_350).
  intros item Hin Hid. vm_compute in Hin.
  apply elem_of_cons in Hin as [-> | Hin]; [simpl; lia|].
  apply list_elem_of_singleton in Hin as ->. discriminate Hid.
Defined.

End QuantitySteps.

(** ** A sale the backend refuses *)

Section FailedSale.

Lemma includes_nonempty (s t : string) :
  JS.nonempty t = true -> JS.includes s t = true -> JS.nonempty s = true.
Proof.
  destruct s as [|c s]; [|reflexivity].
  destruct t as [|d t]; [discriminate|]. simpl. discriminate.
Qed.

(** X7: a refused sale leaves everything in place.  When the guards are
    passed and the sale procedure answers with an error, the only cell
    [handleCompleteSale] has touched is [processing], now false: cart,
    discount, tender and customer are as before, no reset is scheduled, and
    no success is shown.  The toast repeats the backend's message when it
    mentions insufficient stock and is the generic one otherwise. *)
Theorem refused_sale_keeps_state (currentBranchId : string) (be : Backend)
    (st : State) (message : string) :
  canSubmit st = true ->
  process_sale be
    (sale_request currentBranchId (fst (resolve_customer be st)) st)
  = Some message ->
  let r := handleCompleteSale currentBranchId be st in
  fst r = setProcessing false st /\
  (processing st = false -> fst r = st) /\
  submit currentBranchId be st = r /\
  succeeded (snd r) = false /\
  last (snd r) =
  Some (ToastError
          (if JS.includes message "Insufficient stock"
           then message else generic_failure)).
Proof.
  intros Hcan Hrefused. cbv zeta.
  unfold submit, handleCompleteSale.
  unfold canSubmit in Hcan. apply andb_true_iff in Hcan as [Hcart Hpay].
  destruct (length (cart st) =? 0)%nat; [discriminate|].
  rewrite Hpay. simpl negb. cbv iota.
  pose proof (resolve_customer_events be st) as Hcust.
  destruct (resolve_customer be st) as [customerId customer_events].
  simpl in Hrefused, Hcust. rewrite Hrefused.
  assert (Htoast : sale_error_toast message =
                   ToastError (if JS.includes message "Insufficient stock"
                               then message else generic_failure)).
  { unfold sale_error_toast.
    destruct (JS.includes message "Insufficient stock") eqn:E.
    - rewrite (includes_nonempty message "Insufficient stock" eq_refl E).
      reflexivity.
    - rewrite andb_false_r. reflexivity. }
  assert (Hno_timer :
    SetTimeout 2000 ∉
      customer_events ++ [ProcessSale
        (sale_request currentBranchId customerId st);
        sale_error_toast message]).
  { rewrite Htoast. intros Hin. apply elem_of_app in Hin as [Hin | Hin].
    - exact (customer_events_no_timer _ _ Hcust Hin).
    - repeat (apply elem_of_cons in Hin as [Hin | Hin]; [discriminate|]).
      inversion Hin. }
  rewrite (bool_decide_eq_false_2 _ Hno_timer). simpl fst. simpl snd.
  split; [destruct st; reflexivity|].
  split; [intros Hp; destruct st; simpl in *; subst; reflexivity|].
  split; [reflexivity|]. split.
  - rewrite succeeded_app, (customer_events_no_toast _ Hcust), Htoast.
    reflexivity.
  - rewrite Htoast.
    change (customer_events ++ [?a; ?b]) with (customer_events ++ [a] ++ [b]).
    rewrite !app_assoc. apply last_snoc.
Qed.

Lemma refused_sale_keeps_state_witness :
  let r := handleCompleteSale "branch-1"
             (refusing_backend "Insufficient stock for Product B") cart_350 in
  fst r = cart_350 /\
  last (snd r) = Some (ToastError "Insufficient stock for Product B").
Proof.
  destruct (refused_sale_keeps_state "branch-1"
              (refusing_backend "Insufficient stock for Product B")
              cart_350 "Insufficient stock for Product B")
    as (_ & Hsame & _ & _ & Htoast).
  - reflexivity.
  - reflexivity.
  - split; [apply Hsame; reflexivity | exact Htoast].
Defined.

End FailedSale.

(** ** What a request carries *)

Section Request.

Lemma add_zero_r (x : JS.number) : JS.add x JS.zero = x.
Proof. rewrite add_comm. apply add_zero_l. Qed.

Lemma fold_line_totals (c : list CartItem.t) (acc : JS.number) :
  fold_left
    (fun sum item =>
       JS.add sum
         (JS.mul (price_value (CartItem.price item))
                 (JS.of_Z (CartItem.quantity item))))
    c acc
  = fold_left JS.add (map RpcItem.total (map rpcItem c)) acc.
Proof.
  revert acc. induction c as [|item c IH]; simpl; intros acc;
    [reflexivity | apply IH].
Qed.

(** X8: the lines of a request add up to its subtotal.  In every request
    that [handleCompleteSale] sends there is one line per cart line, in cart
    order, each line's total is its price times its quantity, its original
    price is reported equal to the price sold at, and [p_total] is the sum
    of the line totals. *)
Theorem request_lines_add_up (currentBranchId : string) (be : Backend)
    (st : State) (req : SaleRequest) :
  req ∈ sent_requests (snd (handleCompleteSale currentBranchId be st)) ->
  map RpcItem.productId (p_items req) = cart_ids (cart st) /\
  map RpcItem.quantity (p_items req) = map CartItem.quantity (cart st) /\
  Forall (fun line =>
            RpcItem.total line =
            JS.mul (RpcItem.price line) (JS.of_Z (RpcItem.quantity line))
            /\ RpcItem.originalPrice line = RpcItem.price line)
         (p_items req) /\
  p_total req = fold_left JS.add (map RpcItem.total (p_items req)) JS.zero.
Proof.
  intros Hin. apply sent_request_inv in Hin as [_ ->].
  unfold sale_request, rpcItems, cart_ids. simpl.
  split; [|split; [|split]].
  - rewrite map_map. reflexivity.
  - rewrite map_map. reflexivity.
  - apply Forall_forall. intros line Hin.
    apply list_elem_of_fmap in Hin as (item & -> & _). split; reflexivity.
  - unfold cart_subtotal. apply fold_line_totals.
Qed.

Lemma request_lines_add_up_witness :
  let req := sale_request "branch-1" None cart_350 in
  map RpcItem.total (p_items req) = [JS.of_Z 300; JS.of_Z 50] /\
  p_total req = fold_left JS.add (map RpcItem.total (p_items req)) JS.zero.
Proof.
  split; [by_compute|].
  destruct (request_lines_add_up "branch-1" accepting_backend cart_350
              (sale_request "branch-1" None cart_350))
    as (_ & _ & _ & Hsum).
  - by_compute.
  - exact Hsum.
Defined.

(** X9: the tender breakdown of a request accounts for what is paid.  In
    the request [handleCompleteSale] assembles, whatever the state and the
    customer, the three amounts of [p_payment_details] add up to its
    [total_paid].  In single mode the whole final total is put on the
    selected method, which is also the headline method, and the other two
    are 0; in split mode the stored split amounts go out as they are, their
    sum as [total_paid].  Every request sent is the one so assembled. *)
Theorem request_tender_adds_up (currentBranchId : string) (be : Backend)
    (customerId : option string) (st : State) :
  let req := sale_request currentBranchId customerId st in
  let d := p_payment_details req in
  JS.add (JS.add (PaymentDetails.cash d) (PaymentDetails.bank d))
         (PaymentDetails.telebirr d)
  = PaymentDetails.total_paid d /\
  PaymentDetails.is_split d = showSplitPayment st /\
  (showSplitPayment st = false ->
   p_payment_method req = paymentMethod st /\
   PaymentDetails.total_paid d = p_final_total req /\
   forall m : PaymentMethod,
     details_amount m d =
     if bool_decide (m = paymentMethod st) then p_final_total req
     else JS.zero) /\
  (showSplitPayment st = true ->
   (forall m : PaymentMethod,
      details_amount m d = Splits.get m (paymentSplits st)) /\
   PaymentDetails.total_paid d = totalPaid st) /\
  (forall sent : SaleRequest,
     sent ∈ sent_requests (snd (handleCompleteSale currentBranchId be st)) ->
     sent = sale_request currentBranchId (fst (resolve_customer be st)) st).
Proof.
  cbv zeta. split; [|split; [|split; [|split]]].
  - unfold sale_request, paymentDetails. cbv zeta.
    cbn [p_payment_details].
    generalize (JS.max JS.zero
                  (JS.sub (cart_subtotal (cart st)) (discountAmount st))).
    intros T. destruct (showSplitPayment st); simpl; [reflexivity|].
    destruct (paymentMethod st);
      repeat first [ rewrite bool_decide_eq_true_2 by reflexivity
                   | rewrite bool_decide_eq_false_2 by discriminate ];
      rewrite ?add_zero_r, ?add_zero_l; reflexivity.
  - unfold sale_request, paymentDetails. cbv zeta.
    destruct (showSplitPayment st); reflexivity.
  - intros Hsingle.
    unfold sale_request, paymentDetails, primaryMethod. cbv zeta.
    rewrite Hsingle. simpl.
    split; [reflexivity|]. split; [reflexivity|].
    intros m. destruct m, (paymentMethod st); reflexivity.
  - intros Hsplit.
    unfold sale_request, paymentDetails. cbv zeta.
    rewrite Hsplit. simpl. split; [|reflexivity].
    intros m. destruct m; reflexivity.
  - intros sent Hin. apply sent_request_inv in Hin as [_ ->]. reflexivity.
Qed.

End Request.

(** ** The customer of a sale *)

Section CustomerOfSale.

Lemma resolve_customer_untyped (be : Backend) (st : State) :
  selectedCustomer st <> None \/
  JS.trim (customerName st) = "" \/ JS.trim (customerPhone st) = "" ->
  resolve_customer be st = (selected_customer_id st, []).
Proof.
  intros Hcase. unfold resolve_customer.
  destruct (selectedCustomer st) as [c|] eqn:Hsel; [reflexivity|].
  destruct Hcase as [Hsome | [-> | ->]]; [contradiction | reflexivity |].
  simpl. rewrite andb_false_r. reflexivity.
Qed.

(** X10: no customer row is created behind the operator's back.  When a
    customer is selected, or when the name or the phone typed in is blank
    once trimmed, [handleCompleteSale] makes no insert into and no lookup of
    the customers table, whatever else was typed, and any request it sends
    is booked on the selected customer's id, or on no customer when none is
    selected. *)
Theorem no_customer_call_unless_typed (currentBranchId : string)
    (be : Backend) (st : State) :
  selectedCustomer st <> None \/
  JS.trim (customerName st) = "" \/ JS.trim (customerPhone st) = "" ->
  existsb is_customer_event
    (snd (handleCompleteSale currentBranchId be st)) = false /\
  (forall req : SaleRequest,
     req ∈ sent_requests (snd (handleCompleteSale currentBranchId be st)) ->
     p_customer_id req = selected_customer_id st) /\
  (selectedCustomer st = None -> selected_customer_id st = None).
Proof.
  intros Hcase. pose proof (resolve_customer_untyped be st Hcase) as Hres.
  split; [|split].
  - unfold handleCompleteSale.
    destruct (length (cart st) =? 0)%nat; [reflexivity|].
    destruct (negb (isPaymentComplete st)); [reflexivity|].
    rewrite Hres. simpl.
    destruct (process_sale be _) as [message|]; simpl.
    + unfold sale_error_toast. destruct (_ && _); reflexivity.
    + destruct (selected_customer_id st) as [cid|];
        [destruct (JS.nonempty cid)|]; reflexivity.
  - intros req Hin. apply sent_request_inv in Hin as [_ ->].
    rewrite Hres. reflexivity.
  - unfold selected_customer_id. intros ->. reflexivity.
Qed.

Lemma no_customer_call_unless_typed_witness :
  existsb is_customer_event
    (snd (handleCompleteSale "branch-1" accepting_backend
            with_selected_customer)) = false /\
  map p_customer_id
    (sent_requests
       (snd (handleCompleteSale "branch-1" accepting_backend
               with_selected_customer)))
  = [Some "c-7"].
Proof.
  destruct (no_customer_call_unless_typed "branch-1" accepting_backend
              with_selected_customer) as (Hnone & _ & _).
  - left. discriminate.
  - split; [exact Hnone | by_compute].
Defined.

(** X11: a typed customer is created first, with trimmed fields.  When no
    customer is selected and both the name and the phone are non-blank,
    [handleCompleteSale], once past its guards, first inserts a customer row
    with the trimmed name and phone, and only then sends the sale; the sale
    is booked on the new row's id when the insert succeeds. *)
Theorem typed_customer_is_inserted_first (currentBranchId : string)
    (be : Backend) (st : State) :
  canSubmit st = true ->
  selectedCustomer st = None ->
  JS.trim (customerName st) <> "" ->
  JS.trim (customerPhone st) <> "" ->
  let name := JS.trim (customerName st) in
  let phone := JS.trim (customerPhone st) in
  head (snd (handleCompleteSale currentBranchId be st))
  = Some (InsertCustomer name phone) /\
  (forall newId : string,
     insert_customer be name phone = Inserted newId ->
     sent_requests (snd (handleCompleteSale currentBranchId be st))
     = [sale_request currentBranchId (Some newId) st]).
Proof.
  intros Hcan Hsel Hname Hphone. cbv zeta.
  assert (Hres : exists rest,
            snd (resolve_customer be st)
            = InsertCustomer (JS.trim (customerName st))
                (JS.trim (customerPhone st)) :: rest).
  { unfold resolve_customer. rewrite Hsel. simpl.
    destruct (JS.trim (customerName st)); [contradiction|].
    destruct (JS.trim (customerPhone st)); [contradiction|]. simpl.
    destruct (insert_customer be _ _) as [code|newId|];
      [destruct (String.eqb code "23505");
         [destruct (find_customer_by_phone be _)|]| |];
      simpl; eauto. }
  destruct Hres as [rest Hrest]. split.
  - unfold handleCompleteSale.
    unfold canSubmit in Hcan. apply andb_true_iff in Hcan as [Hcart Hpay].
    destruct (length (cart st) =? 0)%nat; [discriminate|].
    rewrite Hpay. simpl negb. cbv iota.
    destruct (resolve_customer be st) as [customerId customer_events].
    simpl in Hrest. subst customer_events.
    destruct (process_sale be _); reflexivity.
  - intros newId Hins. rewrite (handleCompleteSale_sends _ _ _ Hcan).
    unfold resolve_customer. rewrite Hsel. simpl.
    destruct (JS.trim (customerName st)); [contradiction|].
    destruct (JS.trim (customerPhone st)); [contradiction|]. simpl.
    rewrite Hins. reflexivity.
Qed.

Lemma typed_customer_is_inserted_first_witness :
  head (snd (handleCompleteSale "branch-1" accepting_backend typed_customer))
  = Some (InsertCustomer "Sara" "0911").
Proof.
  apply (typed_customer_is_inserted_first "branch-1" accepting_backend
           typed_customer).
  - reflexivity.
  - reflexivity.
  - discriminate.
  - discriminate.
Defined.

End CustomerOfSale.

(** ** The split amounts *)

Section SplitAmounts.

Lemma no_negative_split_zero : no_negative_split Splits.zero.
Proof. intros m. destruct m; reflexivity. Qed.

Lemma no_negative_split_set (method : PaymentMethod) (v : JS.number)
    (s : Splits.t) :
  JS.ltb v JS.zero = false ->
  no_negative_split s -> no_negative_split (Splits.set method v s).
Proof.
  intros Hv Hs m. specialize (Hs m).
  destruct method, m; simpl in *; assumption.
Qed.

(** A submission leaves the split amounts as they were or zeroes them. *)
Lemma submit_splits (currentBranchId : string) (be : Backend) (st : State) :
  paymentSplits (fst (submit currentBranchId be st)) = paymentSplits st \/
  paymentSplits (fst (submit currentBranchId be st)) = Splits.zero.
Proof.
  unfold submit, handleCompleteSale.
  destruct (length (cart st) =? 0)%nat; [left; reflexivity|].
  destruct (negb (isPaymentComplete st)); [left; reflexivity|].
  destruct (resolve_customer be st) as [customerId customer_events].
  destruct (process_sale be _) as [message|];
    destruct (bool_decide _); simpl; auto.
Qed.

Lemma perform_no_negative_split (a : Action) (st : State) :
  no_negative_split (paymentSplits st) ->
  no_negative_split (paymentSplits (fst (perform a st))).
Proof.
  intros Hs. destruct a; cbn [perform]; try exact Hs.
  - unfold addToCart. destruct (List.find _ _); [destruct (_ >=? _)|]; exact Hs.
  - unfold updatePrice. destruct (String.eqb _ _); [|destruct (_ || _)];
      exact Hs.
  - unfold updatePaymentSplit.
    destruct (JS.ltb _ JS.zero) eqn:Hneg; [exact Hs|].
    apply no_negative_split_set; assumption.
  - unfold payAll. simpl.
    apply no_negative_split_set; [apply max_zero_not_negative | exact Hs].
  - apply no_negative_split_zero.
  - destruct (submit_splits currentBranchId be st) as [-> | ->];
      [exact Hs | apply no_negative_split_zero].
Qed.

(** X12: split amounts are never negative.  In every state reached from the
    freshly mounted component, by any sequence of actions and whatever texts
    were typed into the split fields, none of the three stored split amounts
    is below zero. *)
Theorem split_amounts_never_negative (actions : list Action)
    (m : PaymentMethod) :
  JS.ltb (Splits.get m (paymentSplits (run actions initial))) JS.zero = false.
Proof.
  assert (Hall : forall st,
            no_negative_split (paymentSplits st) ->
            no_negative_split (paymentSplits (run actions st))).
  { induction actions as [|a actions IH]; simpl; intros st Hs; [exact Hs|].
    apply IH, perform_no_negative_split, Hs. }
  apply Hall. apply no_negative_split_zero.
Qed.

(** A remainder within the tolerance is not below minus the tolerance. *)
Lemma within_not_below (r : JS.number) :
  JS.ltb (JS.abs r) epsilon = true -> JS.ltb r (JS.neg epsilon) = false.
Proof.
  unfold epsilon, JS.lit. destruct r as [|[]|q]; simpl; try discriminate;
    try reflexivity.
  destruct (JS.Qc_ltb q 0%Qc) eqn:E; simpl; intros H; qc_lra.
Qed.

(** X13: in split mode a payment is never shown both complete and overpaid:
    whenever [isPaymentComplete] holds there, [isOverpaid] does not. *)
Theorem complete_excludes_overpaid (st : State) :
  showSplitPayment st && isPaymentComplete st && isOverpaid st = false.
Proof.
  unfold isPaymentComplete, isSplitMode, isOverpaid.
  destruct (showSplitPayment st); [|reflexivity]. simpl.
  destruct (JS.ltb (JS.abs (remaining st)) epsilon) eqn:E; [|reflexivity].
  simpl. apply within_not_below, E.
Qed.

End SplitAmounts.

(** ** Amounts due *)

Section AmountsDue.

Lemma total_not_negative (st : State) : JS.ltb (total st) JS.zero = false.
Proof. unfold total. apply max_zero_not_negative. Qed.

Lemma max_zero_of_nonnegative (q : Qc) :
  JS.ltb (JS.Fin q) JS.zero = false ->
  JS.max JS.zero (JS.sub (JS.Fin q) JS.zero) = JS.Fin q.
Proof.
  simpl. intros Hq.
  destruct (JS.Qc_ltb (Qc_of_Z 0) (q + - Qc_of_Z 0)%Qc) eqn:E.
  - f_equal. qc_lra.
  - unfold JS.zero, JS.of_Z. f_equal. qc_lra.
Qed.

(** X14: clearing the split and paying all by one method settles the sale.
    For a finite total, [clearPayments] followed by [payAll] puts exactly the
    total on the chosen method and 0 on the other two, so that the amount
    paid equals the total and the payment counts as complete in either
    mode. *)
Theorem payAll_after_clearPayments (method : PaymentMethod) (st : State) :
  JS.is_finite (total st) = true ->
  let st' := fst (payAll method (fst (clearPayments st))) in
  paymentSplits st' = Splits.set method (total st) Splits.zero /\
  totalPaid st' = total st /\
  isPaymentComplete st' = true.
Proof.
  intros Hfin. cbv zeta.
  rewrite payAll_finite by reflexivity.
  change (total (fst (clearPayments st))) with (total st).
  change (paymentSplits (fst (clearPayments st))) with Splits.zero.
  pose proof (total_not_negative st) as Hpos.
  destruct (finite_inv _ Hfin) as [T HT]. rewrite HT in *.
  assert (Hothers : others_total method Splits.zero = JS.zero).
  { destruct method; apply add_zero_l. }
  rewrite Hothers, (max_zero_of_nonnegative T Hpos).
  assert (Hpaid : splits_total (Splits.set method (JS.Fin T) Splits.zero)
                  = JS.Fin T).
  { rewrite splits_total_set by reflexivity.
    rewrite Hothers. apply add_zero_r. }
  split; [reflexivity|]. split.
  - unfold totalPaid. simpl paymentSplits. exact Hpaid.
  - unfold isPaymentComplete, isSplitMode, remaining, totalPaid.
    change (total (setPaymentSplits ?s ?x)) with (total st).
    simpl paymentSplits. simpl showSplitPayment.
    destruct (showSplitPayment st); [|reflexivity].
    rewrite HT, Hpaid. unfold epsilon, JS.lit. simpl.
    destruct (JS.Qc_ltb _ 0%Qc) eqn:E; simpl; qc_lra.
Qed.

Lemma payAll_after_clearPayments_witness :
  paymentSplits (fst (payAll Telebirr (fst (clearPayments overpaid_split))))
  = Splits.mk JS.zero JS.zero (JS.of_Z 350) /\
  isPaymentComplete (fst (payAll Telebirr (fst (clearPayments overpaid_split))))
  = true.
Proof.
  destruct (payAll_after_clearPayments Telebirr overpaid_split)
    as (Hsplits & _ & Hdone).
  - reflexivity.
  - split; [rewrite Hsplits; by_compute | exact Hdone].
Defined.

(** X15: a discount that covers the subtotal brings the amount due to zero,
    never below.  For a finite subtotal, whenever the discount typed in is
    at least the subtotal, [total] is 0. *)
Theorem discount_covering_subtotal (st : State) :
  JS.is_finite (subtotal st) = true ->
  JS.geb (discountAmount st) (subtotal st) = true ->
  total st = JS.zero.
Proof.
  unfold total, JS.geb. intros Hfin Hge.
  destruct (subtotal st) as [|[]|s]; try discriminate.
  destruct (discountAmount st) as [|[]|d]; simpl in *; try discriminate;
    try reflexivity.
  destruct (JS.Qc_ltb _ _) eqn:E; [|reflexivity]. exfalso. qc_lra.
Qed.

Lemma discount_covering_subtotal_witness : total over_discounted = JS.zero.
Proof.
  apply (discount_covering_subtotal over_discounted); reflexivity.
Defined.

Lemma mul_one_r (x : JS.number) : JS.mul x (JS.of_Z 1) = x.
Proof.
  destruct x as [|s|q]; simpl; try reflexivity.
  f_equal. replace (Qc_of_Z 1) with 1%Qc by (apply Qc_is_canon; reflexivity).
  apply Qcmult_1_r.
Qed.

(** X16: a first click on a product raises the subtotal by its catalogue
    price.  When the product has no line yet, [addToCart] leaves a subtotal
    equal to the one before plus the product's price. *)
Theorem addToCart_raises_subtotal (product : Product.t) (st : State) :
  (forall item, item ∈ cart st ->
                CartItem.productId item <> Product.id product) ->
  subtotal (fst (addToCart product st))
  = JS.add (subtotal st) (Product.price product).
Proof.
  intros Hnone. unfold addToCart.
  destruct (List.find _ _) as [existing|] eqn:Hfind.
  - apply find_some in Hfind as [Hin Hid].
    apply list_elem_of_In in Hin. apply is_product_eq in Hid.
    exfalso. exact (Hnone existing Hin Hid).
  - unfold subtotal, cart_subtotal. simpl. rewrite fold_left_app. simpl.
    rewrite mul_one_r. reflexivity.
Qed.

Lemma addToCart_raises_subtotal_witness :
  subtotal (fst (addToCart product_B paid_by_bank))
  = JS.add (subtotal paid_by_bank) (JS.of_Z 50).
Proof.
  apply (addToCart_raises_subtotal product_B paid_by_bank).
  intros item Hin. vm_compute in Hin.
  apply list_elem_of_singleton in Hin as ->. discriminate.
Defined.

Lemma accepted_price_nonnegative (x : JS.number) :
  JS.isNaN x || JS.ltb x JS.zero = false -> JS.leb JS.zero x = true.
Proof.
  destruct x as [|[]|q]; simpl; try discriminate; try reflexivity.
  intros H. qc_lra.
Qed.

(** X17: [updatePrice] never stores a price that is negative or not a
    number.  Whatever text is typed, every line of the cart afterwards is
    either a line that was there before, untouched, or a line of the edited
    product whose price is the empty text or a number that is at least 0;
    products and quantities stay as they were. *)
Theorem updatePrice_stores_valid_price (productId newPrice : string)
    (st : State) :
  let st' := fst (updatePrice productId newPrice st) in
  (forall item : CartItem.t,
     item ∈ cart st' ->
     item ∈ cart st \/
     (CartItem.productId item = productId /\
      (CartItem.price item = PriceStr "" \/
       exists n : JS.number,
         CartItem.price item = PriceNum n /\ JS.leb JS.zero n = true))) /\
  cart_ids (cart st') = cart_ids (cart st) /\
  map CartItem.quantity (cart st') = map CartItem.quantity (cart st).
Proof.
  unfold updatePrice. destruct (String.eqb newPrice ""); cbv zeta; simpl.
  - split; [|split].
    + intros item Hin. apply list_elem_of_fmap in Hin as (old & -> & Hin).
      destruct (is_product productId old) eqn:Hp; [right | left; exact Hin].
      split; [apply is_product_eq, Hp | left; reflexivity].
    + apply cart_ids_map. intros item. destruct (is_product _ item);
        reflexivity.
    + rewrite map_map. apply map_ext. intros item.
      destruct (is_product _ item); reflexivity.
  - destruct (JS.isNaN _ || JS.ltb _ _) eqn:Hbad; simpl.
    + split; [auto | split; reflexivity].
    + split; [|split].
      * intros item Hin. apply list_elem_of_fmap in Hin as (old & -> & Hin).
        destruct (is_product productId old) eqn:Hp; [right | left; exact Hin].
        split; [apply is_product_eq, Hp | right].
        eexists. split; [reflexivity|].
        apply accepted_price_nonnegative, Hbad.
      * apply cart_ids_map. intros item. destruct (is_product _ item);
          reflexivity.
      * rewrite map_map. apply map_ext. intros item.
        destruct (is_product _ item); reflexivity.
Qed.

End AmountsDue.

(** ** Catalogue pages *)

Section Pages.

(** X18: the catalogue pages tile the result rows.  Row [i] of the query
    falls in the range [fetchProducts] requests for page [i / 20] and in no
    other page's range, and each page's range starts right after the
    previous one ends: turning pages never skips a row and never shows one
    twice. *)
Theorem page_ranges_tile (i pageNumber : Z) :
  (fst (page_range pageNumber) <= i <= snd (page_range pageNumber)
   <-> pageNumber = i / PRODUCTS_PER_PAGE) /\
  fst (page_range (handleNextPage pageNumber))
  = snd (page_range pageNumber) + 1 /\
  snd (page_range pageNumber) - fst (page_range pageNumber) + 1
  = PRODUCTS_PER_PAGE.
Proof.
  unfold page_range, handleNextPage, PRODUCTS_PER_PAGE. simpl.
  split; [|lia]. split.
  - intros H. apply (Z.div_unique i 20 pageNumber (i - pageNumber * 20));
      lia.
  - intros ->. pose proof (Z.div_mod i 20 ltac:(lia)).
    pose proof (Z.mod_pos_bound i 20 ltac:(lia)). lia.
Qed.

Lemma page_after_bounds (presses : list Paging) (page : Z) :
  0 <= page ->
  0 <= page_after presses page <= page + Z.of_nat (length presses).
Proof.
  revert page. unfold page_after.
  induction presses as [|b presses IH]; simpl; intros page Hpage; [lia|].
  assert (Hturn : 0 <= turn b page <= page + 1).
  { destruct b; unfold turn, handleNextPage, handlePrevPage; lia. }
  specialize (IH (turn b page) (proj1 Hturn)). lia.
Qed.

(** X19: the page number stays in range.  Starting from a page that is not
    negative, whatever sequence of Next and Previous is pressed the page
    never goes below 0, so that the range requested never starts below row
    0; Previous undoes Next; and Previous on page 0 stays on page 0. *)
Theorem paging_never_negative (presses : list Paging) (page : Z) :
  0 <= page ->
  0 <= page_after presses page /\
  0 <= fst (page_range (page_after presses page)) /\
  handlePrevPage (handleNextPage page) = page /\
  handlePrevPage 0 = 0.
Proof.
  intros Hpage. pose proof (page_after_bounds presses page Hpage) as Hb.
  unfold page_range, PRODUCTS_PER_PAGE, handlePrevPage, handleNextPage. simpl.
  repeat split; lia.
Qed.

Lemma paging_never_negative_witness :
  0 <= page_after [PrevPage; NextPage; NextPage; PrevPage] 0 /\
  0 <= fst (page_range (page_after [PrevPage; NextPage; NextPage; PrevPage] 0))
  /\ handlePrevPage (handleNextPage 0) = 0 /\
  handlePrevPage 0 = 0.
Proof.
  apply (paging_never_negative [PrevPage; NextPage; NextPage; PrevPage] 0).
  lia.
Defined.

End Pages.

(** ** The tier check *)

Section TierCheck.

(** X20: the tier upgrade is looked up only after a sale went through, and
    only for the customer it was booked on.  Whenever [handleCompleteSale]
    calls [checkTierUpgrade] for a customer id, the success toast is shown,
    exactly one request was sent, and that request carries this id, which is
    not empty. *)
Theorem tier_check_follows_booked_sale (currentBranchId : string)
    (be : Backend) (st : State) (cid : string) :
  CheckTierUpgrade cid ∈ snd (handleCompleteSale currentBranchId be st) ->
  succeeded (snd (handleCompleteSale currentBranchId be st)) = true /\
  cid <> "" /\
  exists req : SaleRequest,
    sent_requests (snd (handleCompleteSale currentBranchId be st)) = [req] /\
    p_customer_id req = Some cid /\
    process_sale be req = None.
Proof.
  intros Hin.
  destruct (canSubmit st) eqn:Hcan.
  2:{ exfalso. revert Hin. unfold handleCompleteSale, canSubmit in *.
      destruct (length (cart st) =? 0)%nat; simpl in *.
      - intros Hin. apply list_elem_of_singleton in Hin. discriminate.
      - rewrite Hcan. simpl. intros Hin.
        apply list_elem_of_singleton in Hin. discriminate. }
  pose proof (handleCompleteSale_sends currentBranchId be st Hcan) as Hsent.
  revert Hin Hsent. unfold handleCompleteSale.
  unfold canSubmit in Hcan. apply andb_true_iff in Hcan as [Hcart Hpay].
  destruct (length (cart st) =? 0)%nat; [discriminate|].
  rewrite Hpay. simpl negb. cbv iota.
  pose proof (resolve_customer_events be st) as Hcust.
  destruct (resolve_customer be st) as [customerId customer_events].
  simpl in Hcust. simpl fst.
  assert (Hnot : CheckTierUpgrade cid ∉ customer_events).
  { intros Hin. rewrite forallb_forall in Hcust.
    apply list_elem_of_In in Hin. apply Hcust in Hin. discriminate Hin. }
  destruct (process_sale be _) as [message|] eqn:Hsale; simpl snd.
  - intros Hin _. exfalso. apply elem_of_app in Hin as [Hin | Hin];
      [exact (Hnot Hin)|].
    unfold sale_error_toast in Hin.
    destruct (_ && _);
      repeat (apply elem_of_cons in Hin as [Hin | Hin]; [discriminate|]);
      inversion Hin.
  - intros Hin Hsent.
    assert (Hcid : customerId = Some cid /\ cid <> "").
    { apply elem_of_app in Hin as [Hin | Hin]; [contradiction|].
      apply elem_of_cons in Hin as [Hin | Hin]; [discriminate|].
      apply elem_of_app in Hin as [Hin | Hin].
      - destruct customerId as [c|]; [|inversion Hin].
        destruct (JS.nonempty c) eqn:Hne; [|inversion Hin].
        apply list_elem_of_singleton in Hin. injection Hin as ->.
        split; [reflexivity|]. intros ->. discriminate Hne.
      - repeat (apply elem_of_cons in Hin as [Hin | Hin]; [discriminate|]).
        inversion Hin. }
    destruct Hcid as [-> Hne]. split; [|split; [exact Hne|]].
    + rewrite succeeded_app. apply orb_true_iff. right.
      destruct (JS.nonempty cid); reflexivity.
    + eexists. split; [exact Hsent|]. split; [reflexivity | exact Hsale].
Qed.

Lemma tier_check_follows_booked_sale_witness :
  succeeded (snd (handleCompleteSale "branch-1" accepting_backend
                    with_selected_customer)) = true /\
  "c-7" <> "".
Proof.
  destruct (tier_check_follows_booked_sale "branch-1" accepting_backend
              with_selected_customer "c-7") as (Hok & Hne & _).
  - by_compute.
  - split; [exact Hok | exact Hne].
Defined.

End TierCheck.

(** ** The sign of the subtotal *)

Section SubtotalSign.

Lemma nonnegative_add (x y : JS.number) :
  JS.leb JS.zero x = true -> JS.leb JS.zero y = true ->
  JS.leb JS.zero (JS.add x y) = true.
Proof.
  destruct x as [|[]|p], y as [|[]|q]; simpl; try discriminate;
    try reflexivity.
  intros Hp Hq. qc_lra.
Qed.

Lemma nonnegative_mul_count (x : JS.number) (n : Z) :
  JS.leb JS.zero x = true -> 1 <= n ->
  JS.leb JS.zero (JS.mul x (JS.of_Z n)) = true.
Proof.
  intros Hx Hn. destruct x as [|[]|p]; simpl in *; try discriminate.
  - assert (Hsign : JS.Qc_sign (Qc_of_Z n) = Gt).
    { unfold JS.Qc_sign, Qc_of_Z, Qcompare. simpl.
      rewrite Z.mul_1_r. apply Z.compare_gt_iff. lia. }
    rewrite Hsign. reflexivity.
  - qc_prop. unfold Qcle, Qcmult, Qc_of_Z, Q2Qc in *. simpl this in *.
    rewrite Qred_correct.
    apply Qle_trans with (y := 0%Q); [unfold inject_Z; lra|].
    apply Qmult_le_0_compat.
    + unfold inject_Z in Hx. lra.
    + unfold inject_Z, Qle. simpl. lia.
Qed.

Lemma map_priced_from_zero (f : CartItem.t -> CartItem.t)
    (c : list CartItem.t) :
  (forall item, priced_from_zero item -> priced_from_zero (f item)) ->
  Forall priced_from_zero c -> Forall priced_from_zero (map f c).
Proof.
  intros Hf Hc. induction Hc as [|item c Hitem Hc IH]; simpl;
    constructor; auto.
Qed.

Lemma perform_priced_from_zero (a : Action) (st : State) :
  catalogue_priced a = true ->
  Forall priced_from_zero (cart st) ->
  Forall priced_from_zero (cart (fst (perform a st))).
Proof.
  intros Ha Hc. destruct a; cbn [perform]; try exact Hc.
  - unfold addToCart. destruct (List.find _ _) as [existing|]; simpl.
    + destruct (_ >=? _); simpl; [exact Hc|].
      apply map_priced_from_zero; [|exact Hc].
      intros item Hitem. destruct (is_product _ item); exact Hitem.
    + apply Forall_app. split; [exact Hc|].
      constructor; [exact Ha | constructor].
  - unfold updateQuantity. simpl. rewrite map_map.
    apply map_priced_from_zero; [|exact Hc].
    intros item Hitem. unfold updateQuantity_item.
    destruct (is_product _ item); [|exact Hitem].
    destruct (_ <=? 0); [exact Hitem|].
    destruct (_ >? _); exact Hitem.
  - unfold updatePrice. destruct (String.eqb newPrice ""); simpl.
    + apply map_priced_from_zero; [|exact Hc].
      intros item Hitem.
      destruct (is_product _ item); [reflexivity | exact Hitem].
    + destruct (JS.isNaN _ || JS.ltb _ _) eqn:Hbad; simpl; [exact Hc|].
      apply map_priced_from_zero; [|exact Hc].
      intros item Hitem. destruct (is_product _ item); [|exact Hitem].
      apply accepted_price_nonnegative, Hbad.
  - unfold handlePriceBlur. simpl.
    apply map_priced_from_zero; [|exact Hc].
    intros item Hitem. destruct (_ && _); [reflexivity | exact Hitem].
  - unfold removeFromCart. simpl.
    rewrite Forall_forall in Hc. apply Forall_forall. intros item Hin.
    apply list_elem_of_filter in Hin as [_ Hin]. apply Hc, Hin.
  - unfold updatePaymentSplit. destruct (JS.ltb _ _); exact Hc.
  - destruct (submit_cart currentBranchId be st) as [-> | ->];
      [exact Hc | constructor].
Qed.

Lemma nonnegative_fold (c : list CartItem.t) (acc : JS.number) :
  Forall priced_from_zero c ->
  Forall (fun item => 1 <= CartItem.quantity item) c ->
  JS.leb JS.zero acc = true ->
  JS.leb JS.zero
    (fold_left
       (fun sum item =>
          JS.add sum
            (JS.mul (price_value (CartItem.price item))
                    (JS.of_Z (CartItem.quantity item))))
       c acc) = true.
Proof.
  intros Hp. revert acc.
  induction Hp as [|item c Hitem Hp IH]; simpl; intros acc Hq Hacc;
    [exact Hacc|].
  apply Forall_cons in Hq as [Hq1 Hq].
  apply IH; [exact Hq|].
  apply nonnegative_add; [exact Hacc|].
  apply nonnegative_mul_count; assumption.
Qed.

Lemma run_priced_from_zero (actions : list Action) (st : State) :
  forallb catalogue_priced actions = true ->
  Forall priced_from_zero (cart st) ->
  Forall priced_from_zero (cart (run actions st)).
Proof.
  revert st. induction actions as [|a actions IH]; simpl;
    intros st Hall Hc; [exact Hc|].
  apply andb_true_iff in Hall as [Ha Hall].
  apply IH; [exact Hall|]. apply perform_priced_from_zero; assumption.
Qed.

(** X21: the amounts shown are genuine amounts.  As long as every catalogue
    entry added shows a price of at least 0, in every state reached from the
    freshly mounted component, whatever was typed into price, discount and
    split fields, every line is priced at a number of at least 0, and the
    subtotal and the total are numbers of at least 0, never [NaN] and never
    negative. *)
Theorem subtotal_never_negative (actions : list Action) :
  forallb catalogue_priced actions = true ->
  let st := run actions initial in
  Forall priced_from_zero (cart st) /\
  JS.leb JS.zero (subtotal st) = true /\
  JS.isNaN (subtotal st) = false /\
  JS.ltb (total st) JS.zero = false.
Proof.
  intros Hall. cbv zeta.
  pose proof (run_priced_from_zero actions initial Hall
                ltac:(constructor)) as Hp.
  assert (Hsub : JS.leb JS.zero (subtotal (run actions initial)) = true).
  { unfold subtotal, cart_subtotal.
    apply nonnegative_fold;
      [exact Hp | apply run_quantities_positive; constructor | reflexivity]. }
  split; [exact Hp|]. split; [exact Hsub|]. split.
  - destruct (subtotal (run actions initial)); [discriminate | |];
      reflexivity.
  - apply total_not_negative.
Qed.

Lemma subtotal_never_negative_witness :
  JS.leb JS.zero (subtotal price_cleared) = true.
Proof.
  apply (subtotal_never_negative [AddToCart product_A; UpdatePrice "A" ""]).
  reflexivity.
Defined.

End SubtotalSign.
